(** * SpeakX Evaluator: the evaluation gateway, the feedback gateway and
      the browser's local evaluator

    Shallow embedding of the Express server (the handlers of
    [POST /api/evaluate] and [POST /api/feedback], [getFallbackFeedback])
    and of the browser class [SpeakingEvaluator] of [app.js]
    ([stopPractice], the emotion bands of [visualizeAudio],
    [evaluateLocally], [calculateClarity], [calculateConfidence]).

    JavaScript values are modelled by their JSON shape, numbers by the
    extended rationals (every finite double is a rational; the operations
    that are exact on doubles are computed in [Q], the inexact ones go
    through a rounding function that is a parameter). *)

From Stdlib Require Import ZArith QArith Qround Bool List String Lia Lqa.
From Stdlib Require Strings.Byte DecimalString.
Import ListNotations.

Set Warnings "-register-all".

Local Open Scope string_scope.
Local Open Scope Z_scope.

(* ================================================================== *)
(** ** JavaScript numbers and values *)
(* ================================================================== *)

Module Js.

(** A JavaScript number: NaN, the two infinities, or a finite value.  The
    sign of zero is not tracked: no operation below tells [-0] from [+0]
    ([Math.max(0, -0)] is [+0], and JSON writes both as [0]). *)
Inductive JsNumber : Type :=
| NaN
| PInf
| NInf
| Fin (q : Q).

(** The same number, whatever fraction denotes it. *)
Definition num_eq (a b : JsNumber) : Prop :=
  match a, b with
  | NaN, NaN => True
  | PInf, PInf => True
  | NInf, NInf => True
  | Fin p, Fin q => (p == q)%Q
  | _, _ => False
  end.

Definition ofZ (z : Z) : JsNumber := Fin (inject_Z z).

(** [a > b]; false as soon as one side is NaN. *)
Definition gt (a b : JsNumber) : bool :=
  match a, b with
  | NaN, _ | _, NaN => false
  | PInf, PInf => false
  | PInf, _ => true
  | _, PInf => false
  | NInf, _ => false
  | Fin _, NInf => true
  | Fin p, Fin q => negb (Qle_bool p q)
  end.

(** [Math.max(a, b)] on two numbers. *)
Definition Math_max (a b : JsNumber) : JsNumber :=
  match a, b with
  | NaN, _ | _, NaN => NaN
  | PInf, _ | _, PInf => PInf
  | NInf, x | x, NInf => x
  | Fin p, Fin q => if Qle_bool p q then Fin q else Fin p
  end.

(** [Math.min(a, b)] on two numbers. *)
Definition Math_min (a b : JsNumber) : JsNumber :=
  match a, b with
  | NaN, _ | _, NaN => NaN
  | NInf, _ | _, NInf => NInf
  | PInf, x | x, PInf => x
  | Fin p, Fin q => if Qle_bool p q then Fin p else Fin q
  end.

(** [Math.round(x)]: the nearest integer, ties towards +infinity, that is
    [floor(x + 1/2)]; exact on every double. *)
Definition Math_round (x : JsNumber) : JsNumber :=
  match x with
  | Fin q => ofZ (Qfloor (q + (1 # 2))%Q)
  | other => other
  end.

(** [x * 0.5].  Halving a double is exact, except when the result
    underflows, and then both the exact and the rounded half are below
    1/2 in magnitude: [Math.round] sends both to zero.  The handler only
    uses the product under [Math.round]. *)
Definition half (x : JsNumber) : JsNumber :=
  match x with
  | Fin q => Fin (q * (1 # 2))%Q
  | other => other
  end.


(** A finite number of the closed interval [lo, hi]. *)
Definition inRange (lo hi : Z) (x : JsNumber) : Prop :=
  match x with
  | Fin q => (inject_Z lo <= q)%Q /\ (q <= inject_Z hi)%Q
  | _ => False
  end.

(** A value as [JSON.parse] and the body parser build it, plus
    [undefined] for a property that is absent.  An object is the list of
    its own properties; a property set twice keeps the first entry of the
    list as its current value. *)
Inductive JsValue : Type :=
| JUndefined
| JNull
| JBool (b : bool)
| JNum (n : JsNumber)
| JStr (s : string)
| JArr (elems : list JsValue)
| JObj (props : list (string * JsValue)).

(** ToBoolean: what [!v], [a && b], [a || b] and [if (v)] look at. *)
Definition ToBoolean (v : JsValue) : bool :=
  match v with
  | JUndefined | JNull => false
  | JBool b => b
  | JNum NaN => false
  | JNum (Fin q) => negb (Qeq_bool q 0%Q)
  | JNum _ => true
  | JStr s => negb (String.eqb s "")
  | JArr _ | JObj _ => true
  end.

(** [v === 'literal']. *)
Definition strictEqStr (v : JsValue) (lit : string) : bool :=
  match v with
  | JStr s => String.eqb s lit
  | _ => false
  end.

Fixpoint lookup (k : string) (props : list (string * JsValue)) : option JsValue :=
  match props with
  | [] => None
  | (k', v) :: rest => if String.eqb k k' then Some v else lookup k rest
  end.

Definition hasOwn (k : string) (props : list (string * JsValue)) : bool :=
  match lookup k props with Some _ => true | None => false end.

(** Errors a handler can see in its [catch]: an [Error] carrying a
    message (what the AI client rejects with, or what the handler throws
    itself), or an error raised by the engine (a TypeError, the
    SyntaxError of [JSON.parse]), whose message text is the engine's. *)
Inductive Thrown : Type :=
| ThrownError (message : string)
| ThrownByEngine.

(** The small exception monad of a [try] block. *)
Definition Exc (A : Type) : Type := Thrown + A.

Definition ret {A} (a : A) : Exc A := inr a.
Definition throw {A} (e : Thrown) : Exc A := inl e.
Definition bind {A B} (c : Exc A) (k : A -> Exc B) : Exc B :=
  match c with
  | inl e => inl e
  | inr a => k a
  end.

(** The handler's view of the object it reads and writes by property
    name ([clarity], [confidence], [clarityFeedback],
    [confidenceFeedback], [analysis]): [null] and [undefined] have no
    properties at all; a primitive has none of these names and cannot
    take one; an object or an array is the list of its named own
    properties (an array fresh from [JSON.parse] has none, its indices
    and [length] are never read). *)
Inductive Target : Type :=
| TNullish
| TPrimitive
| TObject (props : list (string * JsValue)).

Definition asTarget (v : JsValue) : Target :=
  match v with
  | JUndefined | JNull => TNullish
  | JBool _ | JNum _ | JStr _ => TPrimitive
  | JArr _ => TObject []
  | JObj props => TObject props
  end.

(** [o.k]: a TypeError on [null]/[undefined], [undefined] for a name the
    value does not have. *)
Definition getProp (o : Target) (k : string) : Exc JsValue :=
  match o with
  | TNullish => throw ThrownByEngine
  | TPrimitive => ret JUndefined
  | TObject props =>
      match lookup k props with
      | Some v => ret v
      | None => ret JUndefined
      end
  end.

(** [o.k = v].  The server file is an ES module, hence strict code:
    assigning a property of a primitive is a TypeError, as it is on
    [null]/[undefined]. *)
Definition setProp (o : Target) (k : string) (v : JsValue) : Exc Target :=
  match o with
  | TNullish | TPrimitive => throw ThrownByEngine
  | TObject props => ret (TObject ((k, v) :: props))
  end.

(** Does converting [v] to a primitive throw?  A parsed object has no
    callable property of its own, so an own [toString] hides
    [Object.prototype.toString] and leaves nothing to call: TypeError.
    An array is joined, which converts each element that is neither
    [null] nor [undefined]. *)
Fixpoint toPrimitiveThrows (v : JsValue) : bool :=
  match v with
  | JObj props => hasOwn "toString" props
  | JArr elems =>
      (fix any (l : list JsValue) : bool :=
         match l with
         | [] => false
         | x :: rest => toPrimitiveThrows x || any rest
         end) elems
  | _ => false
  end.

(** ToString of a value inside a template literal: only the conversion
    of an object can throw. *)
Definition interpolate (v : JsValue) : Exc unit :=
  if toPrimitiveThrows v then throw ThrownByEngine else ret tt.

(** What the engine supplies and the program does not spell out:
    - [fl]: rounding of an exact result to the nearest double, applied
      where an arithmetic operation of the source can be inexact;
    - [StringToNumber]: the number a string reads as (NaN when it is not
      a numeric literal);
    - [ArrayToNumber]: the number the joined text of an array reads as. *)
Record Engine : Type := {
  fl : Q -> Q;
  StringToNumber : string -> JsNumber;
  ArrayToNumber : list JsValue -> JsNumber
}.

(** ToNumber, as [Math.max], [Math.min] and [*] apply it to an operand. *)
Definition ToNumber (E : Engine) (v : JsValue) : Exc JsNumber :=
  match v with
  | JUndefined => ret NaN
  | JNull => ret (ofZ 0)
  | JBool true => ret (ofZ 1)
  | JBool false => ret (ofZ 0)
  | JNum n => ret n
  | JStr s => ret (StringToNumber E s)
  | JArr elems =>
      if toPrimitiveThrows v then throw ThrownByEngine
      else ret (ArrayToNumber E elems)
  | JObj props =>
      if hasOwn "toString" props then throw ThrownByEngine else ret NaN
  end.

(** [a + b] on two numbers. *)
Definition add (E : Engine) (a b : JsNumber) : JsNumber :=
  match a, b with
  | NaN, _ | _, NaN => NaN
  | PInf, NInf | NInf, PInf => NaN
  | PInf, _ | _, PInf => PInf
  | NInf, _ | _, NInf => NInf
  | Fin p, Fin q => Fin (fl E (p + q)%Q)
  end.

(** [Math.random]: the draws still to come, each in [0, 1). *)
Definition Rng : Type := nat -> Q.

Definition Math_random (rng : Rng) : Q * Rng :=
  (rng O, fun n => rng (S n)).

Definition wellFormed (rng : Rng) : Prop :=
  forall n, (0 <= rng n)%Q /\ (rng n < 1)%Q.

(** [tips[Math.floor(Math.random() * tips.length)]]: the product can be
    inexact; an index outside the array reads [undefined]. *)
Definition pickTip (E : Engine) (tips : list string) (rng : Rng) : JsValue * Rng :=
  let (r, rng') := Math_random rng in
  let i := Qfloor (fl E (r * inject_Z (Z.of_nat (List.length tips)))%Q) in
  ((if i <? 0 then JUndefined
    else match nth_error tips (Z.to_nat i) with
         | Some t => JStr t
         | None => JUndefined
         end), rng').

Module Notations.
Notation "x <- c ;; k" := (bind c (fun x => k))
  (at level 61, c at next level, right associativity).
Notation "c ;;; k" := (bind c (fun _ => k))
  (at level 61, right associativity).
End Notations.

End Js.

(* ================================================================== *)
(** ** The tips and fixed sentences shared by server and browser *)
(* ================================================================== *)

Module Texts.

Definition clarityTips : list string := [
  "Try to articulate each word more clearly and avoid mumbling.";
  "Speak with more structured sentences to boost clarity.";
  "Reduce filler words like 'um' and 'uh' for better clarity.";
  "Practice enunciating consonants more precisely.";
  "Slow down your speaking pace to improve clarity.";
  "Focus on completing your thoughts before moving to the next point."
].

Definition confidenceTips : list string := [
  "Maintain eye contact with the camera to project confidence.";
  "Reduce pauses and hesitations while speaking.";
  "Speak with a stronger, more assertive tone.";
  "Keep your posture upright and face the camera directly.";
  "Practice deep breathing to reduce nervousness in your voice.";
  "Use hand gestures naturally to enhance your message."
].

Definition enableCamera : string :=
  "Enable your camera to receive full confidence scoring and feedback.".

Definition speakIntoMicrophone : string :=
  "Please speak clearly into your microphone to receive clarity feedback.".

Definition startSpeakingAndCamera : string :=
  "Start speaking and enable your camera for a complete evaluation.".

Definition faceAndVoice : string := "Human Face + Voice".
Definition onlyVoice : string := "Only Voice".
Definition noVoice : string := "No Voice".

End Texts.

(* ================================================================== *)
(** ** The server: [/api/evaluate], [/api/feedback] *)
(* ================================================================== *)

Module Server.

Import Js Js.Notations Texts.

(** [req.body] of [/api/evaluate], once destructured: each field is
    whatever the body parser produced, [JUndefined] when the body has no
    such key. *)
Record EvaluateRequest : Type := {
  transcript : JsValue;
  hasFace : JsValue;
  hasVoice : JsValue;
  audioFeatures : JsValue
}.

(** [req.body] of [/api/feedback]. *)
Record FeedbackRequest : Type := {
  fb_clarity : JsValue;
  fb_confidence : JsValue;
  fb_mode : JsValue
}.

(** A prompt, by the values its template interpolates (the rest of the
    text is fixed). *)
Inductive Prompt : Type :=
| EvaluatePrompt (mode : string) (transcript audioFeatures : JsValue)
| FeedbackPrompt (clarity confidence mode : JsValue).

(** What one call of the AI client comes to, seen from the handler:
    [generateContent], [result.response] or [response.text()] rejects or
    throws; or a text arrives, and the fenced-block / bare-object
    extraction followed by [JSON.parse] either throws or yields a
    value. *)
Inductive AiReply : Type :=
| Rejects (e : Thrown)
| Unparsable
| Parsed (v : JsValue).

(** The two module-level handles, set once at start-up: [genAI] is
    defined or not, [model] is defined or not. *)
Record AiClient : Type := {
  genAI : bool;
  model : option (Prompt -> AiReply)
}.

(** The [error] field of a failure body. *)
Inductive ErrorField : Type :=
| ErrText (s : string)
| ErrEngineText.

(** The [evaluation] object of a successful [/api/evaluate] response, as
    handed to [res.json]. *)
Record Evaluation : Type := {
  clarity : JsNumber;
  confidence : JsNumber;
  clarityFeedback : JsValue;
  confidenceFeedback : JsValue;
  analysis : JsValue
}.

(** The object handed to [res.json]. *)
Inductive Payload : Type :=
| Failure (error : ErrorField)
| Evaluated (mode : string) (evaluation : Evaluation)
| Feedback (feedback : JsValue).

Record Response : Type := {
  status : Z;
  payload : Payload
}.

Definition success (r : Response) : bool :=
  match payload r with
  | Failure _ => false
  | _ => true
  end.

Definition errorOf (r : Response) : option ErrorField :=
  match payload r with
  | Failure e => Some e
  | _ => None
  end.

(** [error.message || fallback]. *)
Definition messageOr (e : Thrown) (fallback : string) : ErrorField :=
  match e with
  | ThrownError m => if String.eqb m "" then ErrText fallback else ErrText m
  | ThrownByEngine => ErrEngineText
  end.

(** Lines 88-94: the mode, from the truthiness of the two flags. *)
Definition deriveMode (hasFace hasVoice : JsValue) : string :=
  if ToBoolean hasFace && ToBoolean hasVoice then faceAndVoice
  else if negb (ToBoolean hasFace) && ToBoolean hasVoice then onlyVoice
  else noVoice.

(** [a || b] on values. *)
Definition orElse (a b : JsValue) : JsValue :=
  if ToBoolean a then a else b.

(** Lines 96-121: the prompt of a request.  The transcript is
    interpolated as text (or the placeholder when it is falsy), the
    features go through [JSON.stringify]. *)
Definition shownTranscript (req : EvaluateRequest) : JsValue :=
  orElse (transcript req) (JStr "No clear speech detected").

Definition evaluatePrompt (req : EvaluateRequest) : Prompt :=
  EvaluatePrompt (deriveMode (hasFace req) (hasVoice req))
                 (shownTranscript req)
                 (orElse (audioFeatures req) (JObj [])).

Definition feedbackPrompt (req : FeedbackRequest) : Prompt :=
  FeedbackPrompt (fb_clarity req) (fb_confidence req) (fb_mode req).

Section WithEngine.

Variable E : Engine.

(** Lines 140-149: the mode-based adjustments, written into the parsed
    object. *)
Definition applyModeAdjustments (mode : string) (evaluation : Target) : Exc Target :=
  if String.eqb mode onlyVoice then
    c <- getProp evaluation "confidence" ;;
    n <- ToNumber E c ;;
    e1 <- setProp evaluation "confidence" (JNum (Math_round (half n))) ;;
    setProp e1 "confidenceFeedback" (JStr enableCamera)
  else if String.eqb mode noVoice then
    e1 <- setProp evaluation "clarity" (JNum (ofZ 0)) ;;
    e2 <- setProp e1 "confidence" (JNum (ofZ 0)) ;;
    e3 <- setProp e2 "clarityFeedback" (JStr speakIntoMicrophone) ;;
    setProp e3 "confidenceFeedback" (JStr startSpeakingAndCamera)
  else ret evaluation.

(** [Math.min(10, Math.max(0, v))]. *)
Definition clamp (v : JsValue) : Exc JsNumber :=
  n <- ToNumber E v ;;
  ret (Math_min (ofZ 10) (Math_max (ofZ 0) n)).

(** Lines 88-162: the part of the [try] block that follows the two
    guards. *)
Definition evaluateBody (m : Prompt -> AiReply) (req : EvaluateRequest) : Exc Response :=
  let mode := deriveMode (hasFace req) (hasVoice req) in
  interpolate (shownTranscript req) ;;;
  evaluation <- match m (evaluatePrompt req) with
                | Rejects e => throw e
                | Unparsable => throw (ThrownError "Invalid response format from AI")
                | Parsed v => ret (asTarget v)
                end ;;
  evaluation <- applyModeAdjustments mode evaluation ;;
  cl <- getProp evaluation "clarity" ;;
  cl <- clamp cl ;;
  co <- getProp evaluation "confidence" ;;
  co <- clamp co ;;
  clf <- getProp evaluation "clarityFeedback" ;;
  cof <- getProp evaluation "confidenceFeedback" ;;
  an <- getProp evaluation "analysis" ;;
  ret {| status := 200;
         payload := Evaluated mode
           {| clarity := cl; confidence := co;
              clarityFeedback := clf; confidenceFeedback := cof;
              analysis := an |} |}.

(** [app.post('/api/evaluate', ...)], on a body that is an object. *)
Definition evaluateHandler (client : AiClient) (req : EvaluateRequest) : Response :=
  if negb (ToBoolean (transcript req)) && negb (ToBoolean (hasVoice req)) then
    {| status := 400; payload := Failure (ErrText "No speech data provided") |}
  else
    match genAI client, model client with
    | true, Some m =>
        match evaluateBody m req with
        | inr r => r
        | inl e =>
            {| status := 500;
               payload := Failure (messageOr e "Failed to evaluate speech") |}
        end
    | _, _ =>
        {| status := 503;
           payload := Failure (ErrText
             "Gemini AI not configured. Please add GEMINI_API_KEY to .env file") |}
    end.

(** [getFallbackFeedback(clarity, confidence, mode)]: the confidence tip
    is drawn first, whatever the mode. *)
Definition getFallbackFeedback (rng : Rng) (clarity confidence mode : JsValue)
  : JsValue * Rng :=
  let (drawn, rng1) := pickTip E confidenceTips rng in
  if strictEqStr mode onlyVoice then
    let (tip, rng2) := pickTip E clarityTips rng1 in
    (JObj [("clarityTip", tip); ("confidenceTip", JStr enableCamera)], rng2)
  else if strictEqStr mode noVoice then
    (JObj [("clarityTip", JStr speakIntoMicrophone);
           ("confidenceTip", JStr startSpeakingAndCamera)], rng1)
  else
    let (tip, rng2) := pickTip E clarityTips rng1 in
    (JObj [("clarityTip", tip); ("confidenceTip", drawn)], rng2).

(** Lines 243-266: the part of the [try] block that talks to the AI. *)
Definition feedbackBody (m : Prompt -> AiReply) (req : FeedbackRequest) : Exc Response :=
  interpolate (fb_clarity req) ;;;
  interpolate (fb_confidence req) ;;;
  interpolate (fb_mode req) ;;;
  match m (feedbackPrompt req) with
  | Rejects e => throw e
  | Unparsable => throw ThrownByEngine
  | Parsed v => ret {| status := 200; payload := Feedback v |}
  end.

Definition fallbackResponse (rng : Rng) (req : FeedbackRequest) : Response * Rng :=
  let (fb, rng') :=
    getFallbackFeedback rng (fb_clarity req) (fb_confidence req) (fb_mode req) in
  ({| status := 200; payload := Feedback fb |}, rng').

(** [app.post('/api/feedback', ...)], on a body that is an object. *)
Definition feedbackHandler (client : AiClient) (rng : Rng) (req : FeedbackRequest)
  : Response * Rng :=
  match genAI client, model client with
  | true, Some m =>
      match feedbackBody m req with
      | inr r => (r, rng)
      | inl _ => fallbackResponse rng req
      end
  | _, _ => fallbackResponse rng req
  end.

(** What a handler leaves behind: a response, or a rejection nobody
    handles when its [catch] block throws in turn. *)
Inductive Outcome : Type :=
| Responds (r : Response)
| HandlerRejects (e : Thrown).


(** [POST /api/feedback] likewise; its [catch] reads [req.body.clarity],
    which throws again on an undefined body. *)
Definition postFeedback (client : AiClient) (rng : Rng) (body : option FeedbackRequest)
  : Outcome * Rng :=
  match body with
  | Some req =>
      let (r, rng') := feedbackHandler client rng req in (Responds r, rng')
  | None => (HandlerRejects ThrownByEngine, rng)
  end.

End WithEngine.

End Server.

(* ================================================================== *)
(** ** The browser: [SpeakingEvaluator] *)
(* ================================================================== *)

Module Client.

Import Js Texts.

(** The labels [emotionTone] takes in [visualizeAudio]. *)
Inductive Emotion : Type :=
| Neutral
| Soft
| Calm
| Confident
| Energetic.

(** [this.state]. *)
Record CaptureState : Type := {
  isRecording : bool;
  faceDetected : bool;
  voiceDetected : bool;
  evaluationCount : Z;
  totalClarity : JsNumber;
  totalConfidence : JsNumber;
  sessionDuration : JsNumber;
  backendAvailable : bool
}.

(** [mediaRecorder.state]. *)
Inductive RecorderState : Type :=
| RecInactive
| RecRecording
| RecPaused.

(** What the methods below write into the page. *)
Record Page : Type := {
  videoHasSource : bool;
  overlayHidden : bool;
  faceCanvasClear : bool;
  startBtnDisabled : bool;
  stopBtnDisabled : bool;
  evaluateBtnDisabled : bool;
  systemStatusText : string;
  faceCardActive : bool;
  faceStatusText : string;
  clarityScore : JsNumber;
  confidenceScore : JsNumber;
  clarityFeedbackText : JsValue;
  confidenceFeedbackText : JsValue
}.

(** The [SpeakingEvaluator] instance.  A handle is [true] while the
    field holds an object or a timer id, [false] once it is [null]. *)
Record App : Type := {
  stream : bool;
  audioContext : bool;
  faceDetectionInterval : bool;
  sessionInterval : bool;
  mediaRecorder : option RecorderState;
  currentEmotion : option Emotion;
  state : CaptureState;
  page : Page
}.

Definition setState (a : App) (s : CaptureState) : App :=
  {| stream := stream a; audioContext := audioContext a;
     faceDetectionInterval := faceDetectionInterval a;
     sessionInterval := sessionInterval a;
     mediaRecorder := mediaRecorder a; currentEmotion := currentEmotion a;
     state := s; page := page a |}.

Definition setPage (a : App) (p : Page) : App :=
  {| stream := stream a; audioContext := audioContext a;
     faceDetectionInterval := faceDetectionInterval a;
     sessionInterval := sessionInterval a;
     mediaRecorder := mediaRecorder a; currentEmotion := currentEmotion a;
     state := state a; page := p |}.

(** [updateDetectionStatus()]. *)
Definition updateDetectionStatus (a : App) : App :=
  let p := page a in
  let detected := faceDetected (state a) in
  setPage a
    {| videoHasSource := videoHasSource p; overlayHidden := overlayHidden p;
       faceCanvasClear := faceCanvasClear p;
       startBtnDisabled := startBtnDisabled p;
       stopBtnDisabled := stopBtnDisabled p;
       evaluateBtnDisabled := evaluateBtnDisabled p;
       systemStatusText := systemStatusText p;
       faceCardActive := detected;
       faceStatusText := if detected then "Detected" else "Not Detected";
       clarityScore := clarityScore p; confidenceScore := confidenceScore p;
       clarityFeedbackText := clarityFeedbackText p;
       confidenceFeedbackText := confidenceFeedbackText p |}.

(** [stopPractice()], lines 145-198. *)
Definition stopPractice (a : App) : App :=
  let s := state a in
  let p := page a in
  let stopped :=
    {| stream := false;
       audioContext := false;
       faceDetectionInterval := false;
       sessionInterval := false;
       mediaRecorder :=
         match mediaRecorder a with
         | Some _ => Some RecInactive
         | None => None
         end;
       currentEmotion := currentEmotion a;
       state :=
         {| isRecording := false;
            faceDetected := false;
            voiceDetected := false;
            evaluationCount := evaluationCount s;
            totalClarity := totalClarity s;
            totalConfidence := totalConfidence s;
            sessionDuration := sessionDuration s;
            backendAvailable := backendAvailable s |};
       page :=
         {| videoHasSource := false;
            overlayHidden := false;
            faceCanvasClear := true;
            startBtnDisabled := false;
            stopBtnDisabled := true;
            evaluateBtnDisabled := true;
            systemStatusText :=
              if backendAvailable s then "AI-Powered Mode Active"
              else "Local Mode";
            faceCardActive := faceCardActive p;
            faceStatusText := faceStatusText p;
            clarityScore := clarityScore p;
            confidenceScore := confidenceScore p;
            clarityFeedbackText := clarityFeedbackText p;
            confidenceFeedbackText := confidenceFeedbackText p |} |} in
  updateDetectionStatus stopped.

(** Lines 252-267 of the [draw] tick: the band of [finalDb]. *)
Definition emotionTone (finalDb : JsNumber) : Emotion :=
  if gt finalDb (ofZ 40) then Energetic
  else if gt finalDb (ofZ 25) then Confident
  else if gt finalDb (ofZ 10) then Calm
  else if gt finalDb (ofZ 3) then Soft
  else Neutral.

(** What one [draw] tick derives from [finalDb] while recording; a tick
    that finds [isRecording] false returns at once. *)
Definition drawTick (finalDb : JsNumber) (a : App) : App :=
  if isRecording (state a) then
    let s := state a in
    let a1 := setState a
      {| isRecording := isRecording s;
         faceDetected := faceDetected s;
         voiceDetected := gt finalDb (ofZ 3);
         evaluationCount := evaluationCount s;
         totalClarity := totalClarity s;
         totalConfidence := totalConfidence s;
         sessionDuration := sessionDuration s;
         backendAvailable := backendAvailable s |} in
    updateDetectionStatus
      {| stream := stream a1; audioContext := audioContext a1;
         faceDetectionInterval := faceDetectionInterval a1;
         sessionInterval := sessionInterval a1;
         mediaRecorder := mediaRecorder a1;
         currentEmotion := Some (emotionTone finalDb);
         state := state a1; page := page a1 |}
  else a.

(** The locals of [evaluateLocally] when it calls [displayResults]. *)
Record LocalResult : Type := {
  mode : string;
  clarity : JsNumber;
  confidence : JsNumber
}.

Section WithEngine.

Variable E : Engine.

(** [calculateClarity()]: reads [this.state], not the arguments of
    [evaluateLocally]. *)
Definition calculateClarity (s : CaptureState) (rng : Rng) : JsNumber * Rng :=
  let (r, rng1) := Math_random rng in
  let baseClarity := Fin (fl E (5 + fl E (r * 3))%Q) in
  let voiceBonus := if voiceDetected s then ofZ 2 else ofZ 0 in
  (Math_min (ofZ 10) (Math_round (add E baseClarity voiceBonus)), rng1).

(** [calculateConfidence()]. *)
Definition calculateConfidence (s : CaptureState) (rng : Rng) : JsNumber * Rng :=
  let (baseFaceConfidence, rng1) :=
    if faceDetected s then
      let (r, rng') := Math_random rng in
      (Fin (fl E (4 + fl E (r * 3))%Q), rng')
    else (ofZ 0, rng) in
  let (voiceConfidence, rng2) :=
    if voiceDetected s then
      let (r, rng') := Math_random rng1 in
      (Fin (fl E (2 + r * 2)%Q), rng')
    else (ofZ 0, rng1) in
  (Math_min (ofZ 10) (Math_round (add E baseFaceConfidence voiceConfidence)), rng2).

(** [k + Math.round(Math.random() * 2)].  Doubling a draw of [0, 1) is
    exact, and so is adding the small integer [k] to its rounding. *)
Definition minimumScore (k : Z) (rng : Rng) : JsNumber * Rng :=
  let (r, rng1) := Math_random rng in
  (ofZ (k + Qfloor (r * 2 + (1 # 2))%Q), rng1).

(** [displayResults(clarity, confidence, mode)]. *)
Definition displayResults (r : LocalResult) (a : App) : App :=
  let p := page a in
  setPage a
    {| videoHasSource := videoHasSource p; overlayHidden := overlayHidden p;
       faceCanvasClear := faceCanvasClear p;
       startBtnDisabled := startBtnDisabled p;
       stopBtnDisabled := stopBtnDisabled p;
       evaluateBtnDisabled := evaluateBtnDisabled p;
       systemStatusText := systemStatusText p;
       faceCardActive := faceCardActive p;
       faceStatusText := faceStatusText p;
       clarityScore := clarity r; confidenceScore := confidence r;
       clarityFeedbackText := clarityFeedbackText p;
       confidenceFeedbackText := confidenceFeedbackText p |}.

Definition setFeedbackTexts (a : App) (clarityText confidenceText : JsValue) : App :=
  let p := page a in
  setPage a
    {| videoHasSource := videoHasSource p; overlayHidden := overlayHidden p;
       faceCanvasClear := faceCanvasClear p;
       startBtnDisabled := startBtnDisabled p;
       stopBtnDisabled := stopBtnDisabled p;
       evaluateBtnDisabled := evaluateBtnDisabled p;
       systemStatusText := systemStatusText p;
       faceCardActive := faceCardActive p;
       faceStatusText := faceStatusText p;
       clarityScore := clarityScore p; confidenceScore := confidenceScore p;
       clarityFeedbackText := clarityText;
       confidenceFeedbackText := confidenceText |}.

(** [generateFeedback(clarity, confidence, mode)]. *)
Definition generateFeedback (r : LocalResult) (a : App) (rng : Rng) : App * Rng :=
  if String.eqb (mode r) onlyVoice then
    let (tip, rng1) := pickTip E clarityTips rng in
    (setFeedbackTexts a tip (JStr enableCamera), rng1)
  else if String.eqb (mode r) noVoice then
    (setFeedbackTexts a (JStr speakIntoMicrophone) (JStr startSpeakingAndCamera), rng)
  else
    let (ctip, rng1) := pickTip E confidenceTips rng in
    let (tip, rng2) := pickTip E clarityTips rng1 in
    (setFeedbackTexts a tip ctip, rng2).

(** The three branches of [evaluateLocally], lines 482-495. *)
Definition localScores (s : CaptureState) (hasFace hasVoice : bool) (rng : Rng)
  : LocalResult * Rng :=
  if hasFace && hasVoice then
    let (cl, rng1) := calculateClarity s rng in
    let (co, rng2) := calculateConfidence s rng1 in
    ({| mode := faceAndVoice; clarity := cl; confidence := co |}, rng2)
  else if negb hasFace && hasVoice then
    let (cl, rng1) := calculateClarity s rng in
    let (co, rng2) := calculateConfidence s rng1 in
    ({| mode := onlyVoice; clarity := cl;
        confidence := Math_round (half co) |}, rng2)
  else
    let (cl, rng1) := minimumScore 5 rng in
    let (co, rng2) := minimumScore 3 rng1 in
    ({| mode := noVoice; clarity := cl; confidence := co |}, rng2).

(** [evaluateLocally(hasFace, hasVoice)]. *)
Definition evaluateLocally (a : App) (hasFace hasVoice : bool) (rng : Rng)
  : LocalResult * App * Rng :=
  let s := state a in
  let (r, rng1) := localScores s hasFace hasVoice rng in
  let a1 := setState a
    {| isRecording := isRecording s;
       faceDetected := faceDetected s;
       voiceDetected := voiceDetected s;
       evaluationCount := evaluationCount s + 1;
       totalClarity := add E (totalClarity s) (clarity r);
       totalConfidence := add E (totalConfidence s) (confidence r);
       sessionDuration := sessionDuration s;
       backendAvailable := backendAvailable s |} in
  let a2 := displayResults r a1 in
  let (a3, rng2) := generateFeedback r a2 rng1 in
  (r, a3, rng2).

(** A session of calls, each with the flags it is given. *)
Fixpoint evaluateLocallyAll (calls : list (bool * bool)) (a : App) (rng : Rng)
  : list LocalResult :=
  match calls with
  | [] => []
  | (hasFace, hasVoice) :: rest =>
      let '(r, a', rng') := evaluateLocally a hasFace hasVoice rng in
      r :: evaluateLocallyAll rest a' rng'
  end.

End WithEngine.

End Client.

(* ================================================================== *)
(** ** The server: start-up, [/health], [/api/status],
       [/api/analyze-audio] *)
(* ================================================================== *)

Module Endpoints.

Import Js Texts Server.

(** What the two SDK calls of lines 26-27 come to: both succeed and give
    a model, or the constructor throws, or [getGenerativeModel] throws
    once [genAI] is assigned. *)
Inductive SdkInit : Type :=
| SdkReady (m : Prompt -> AiReply)
| ConstructorThrows
| GetModelThrows.

(** [!!process.env.GEMINI_API_KEY]: a variable that is set and not
    empty. *)
Definition keyPresent (GEMINI_API_KEY : option string) : bool :=
  match GEMINI_API_KEY with
  | Some k => negb (String.eqb k "")
  | None => false
  end.

(** Lines 17-32: the two module-level handles after start-up. *)
Definition initialize (GEMINI_API_KEY : option string) (sdk : SdkInit) : AiClient :=
  if keyPresent GEMINI_API_KEY then
    match sdk with
    | SdkReady m => {| genAI := true; model := Some m |}
    | ConstructorThrows => {| genAI := false; model := None |}
    | GetModelThrows => {| genAI := true; model := None |}
    end
  else {| genAI := false; model := None |}.

(** The body of [GET /health]; [now] is [new Date().toISOString()]. *)
Record Health : Type := {
  health_status : string;
  timestamp : string;
  geminiConfigured : bool
}.

Definition health (GEMINI_API_KEY : option string) (now : string) : Health :=
  {| health_status := "ok";
     timestamp := now;
     geminiConfigured := keyPresent GEMINI_API_KEY |}.

(** The body of [GET /api/status]. *)
Record ApiStatus : Type := {
  api_success : bool;
  message : string;
  geminiAvailable : bool;
  version : string
}.

Definition apiStatus (client : AiClient) : ApiStatus :=
  {| api_success := true;
     message := "SpeakX Evaluator API is running";
     geminiAvailable := genAI client;
     version := "1.0.0" |}.

(** [req.file] as multer leaves it. *)
Record UploadedFile : Type := {
  buffer : list Byte.byte;
  mimetype : string
}.

(** The inline part sent with the audio prompt: the bytes (which travel
    base64-encoded) and the MIME type. *)
Record InlineData : Type := {
  data : list Byte.byte;
  mimeType : string
}.

(** What the call with an audio part comes to: a rejection, or the text
    of the reply. *)
Inductive TextReply : Type :=
| TextRejects (e : Thrown)
| Text (t : string).

(** The object handed to [res.json] by [/api/analyze-audio]. *)
Inductive AudioPayload : Type :=
| AudioFailure (error : ErrorField)
| Analysis (analysis : string).

Record AudioResponse : Type := {
  audio_status : Z;
  audio_payload : AudioPayload
}.

(** [app.post('/api/analyze-audio', ...)], lines 174-228.  [ask] is what
    [model.generateContent] does with the prompt and the inline part; it
    is only called when [model] is set. *)
Definition analyzeAudioHandler (client : AiClient) (ask : InlineData -> TextReply)
           (file : option UploadedFile) : AudioResponse :=
  match file with
  | None =>
      {| audio_status := 400;
         audio_payload := AudioFailure (ErrText "No audio file provided") |}
  | Some f =>
      match genAI client, model client with
      | true, Some _ =>
          match ask {| data := buffer f;
                       mimeType := if String.eqb (mimetype f) "" then "audio/webm"
                                   else mimetype f |} with
          | Text t => {| audio_status := 200; audio_payload := Analysis t |}
          | TextRejects e =>
              {| audio_status := 500;
                 audio_payload := AudioFailure (messageOr e "Failed to analyze audio") |}
          end
      | _, _ =>
          {| audio_status := 503;
             audio_payload := AudioFailure (ErrText "Gemini AI not configured") |}
      end
  end.

End Endpoints.

(* ================================================================== *)
(** ** The browser: the audio level, face detection, the backend call,
       the session clock *)
(* ================================================================== *)

Module Capture.

Import Js Texts Client.

(** One bin of the [Uint8Array]. *)
Definition byteValue (b : Byte.byte) : Z := Z.of_N (Byte.to_N b).

(** Lines 239-244: the sum and the maximum of the bins.  Both stay
    integers far below 2^53, so the additions are exact. *)
Definition sumOf (frequencyData : list Byte.byte) : Z :=
  fold_left (fun sum b => sum + byteValue b) frequencyData 0.

Definition maxOf (frequencyData : list Byte.byte) : Z :=
  fold_left (fun maxValue b => Z.max maxValue (byteValue b)) frequencyData 0.

(** The double written [0.7]. *)
Definition pointSeven : Q := 3152519739159347 # 4503599627370496.

(** [this.transcriptBuffer.join(' ') || 'User is speaking...']. *)
Definition spokenTranscript (transcriptBuffer : list string) : JsValue :=
  Server.orElse (JStr (String.concat " " transcriptBuffer))
                (JStr "User is speaking...").

(** Lines 427-435: the body sent to [/api/evaluate]; [audioChunks] is
    [this.audioChunks.length]. *)
Definition evaluationData (transcriptBuffer : list string) (audioChunks : nat)
           (hasFace hasVoice : bool) : Server.EvaluateRequest :=
  {| Server.transcript := spokenTranscript transcriptBuffer;
     Server.hasFace := JBool hasFace;
     Server.hasVoice := JBool hasVoice;
     Server.audioFeatures :=
       JObj [("duration", JNum (ofZ (Z.of_nat audioChunks)));
             ("hasAudio", JBool hasVoice)] |}.

(** What [fetch] and [response.json()] come to: a rejection (network
    down, body that is no JSON), or the parsed body of a response. *)
Inductive FetchOutcome : Type :=
| FetchFails
| Delivered (r : Server.Response).

(** A score as it arrives: [JSON.stringify] writes NaN and the
    infinities as [null]. *)
Definition onWire (n : JsNumber) : JsValue :=
  match n with
  | Fin q => JNum (Fin q)
  | _ => JNull
  end.

(** What the backend path writes into the page (lines 457-461): the two
    score texts and the two feedback texts. *)
Record Shown : Type := {
  shownClarity : JsValue;
  shownConfidence : JsValue;
  shownClarityFeedback : JsValue;
  shownConfidenceFeedback : JsValue
}.

(** How an evaluation ended: through the backend, with the new
    [this.state] and what was written into the page, the rest of the
    instance being untouched; or through [evaluateLocally]. *)
Inductive Evaluated : Type :=
| ViaBackend (s : CaptureState) (shown : Shown)
| ViaLocal (r : LocalResult) (a : App) (rng : Rng).


(** What the face detector of one timer tick comes to. *)
Inductive Detection : Type :=
| FaceFound
| NoFace
| DetectorThrows.

(** What the status probe comes to. *)
Inductive StatusFetch : Type :=
| StatusFails
| StatusDelivered (d : Endpoints.ApiStatus).

Definition setSystemStatusText (a : App) (text : string) : App :=
  let p := page a in
  setPage a
    {| videoHasSource := videoHasSource p; overlayHidden := overlayHidden p;
       faceCanvasClear := faceCanvasClear p;
       startBtnDisabled := startBtnDisabled p;
       stopBtnDisabled := stopBtnDisabled p;
       evaluateBtnDisabled := evaluateBtnDisabled p;
       systemStatusText := text;
       faceCardActive := faceCardActive p;
       faceStatusText := faceStatusText p;
       clarityScore := clarityScore p; confidenceScore := confidenceScore p;
       clarityFeedbackText := clarityFeedbackText p;
       confidenceFeedbackText := confidenceFeedbackText p |}.

Definition setBackendAvailable (a : App) (available : bool) : App :=
  let s := state a in
  setState a
    {| isRecording := isRecording s;
       faceDetected := faceDetected s;
       voiceDetected := voiceDetected s;
       evaluationCount := evaluationCount s;
       totalClarity := totalClarity s;
       totalConfidence := totalConfidence s;
       sessionDuration := sessionDuration s;
       backendAvailable := available |}.

(** [checkBackendStatus()], lines 38-58. *)
Definition checkBackendStatus (f : StatusFetch) (a : App) : App :=
  match f with
  | StatusDelivered d =>
      if Endpoints.api_success d then
        setSystemStatusText (setBackendAvailable a true)
          (if Endpoints.geminiAvailable d then "AI-Powered Mode Active"
           else "Backend Ready (Add API Key)")
      else a
  | StatusFails =>
      setSystemStatusText (setBackendAvailable a false) "Local Mode"
  end.

Definition setFaceDetected (a : App) (detected : bool) : App :=
  let s := state a in
  setState a
    {| isRecording := isRecording s;
       faceDetected := detected;
       voiceDetected := voiceDetected s;
       evaluationCount := evaluationCount s;
       totalClarity := totalClarity s;
       totalConfidence := totalConfidence s;
       sessionDuration := sessionDuration s;
       backendAvailable := backendAvailable s |}.

Definition setFaceCanvasClear (a : App) (clear : bool) : App :=
  let p := page a in
  setPage a
    {| videoHasSource := videoHasSource p; overlayHidden := overlayHidden p;
       faceCanvasClear := clear;
       startBtnDisabled := startBtnDisabled p;
       stopBtnDisabled := stopBtnDisabled p;
       evaluateBtnDisabled := evaluateBtnDisabled p;
       systemStatusText := systemStatusText p;
       faceCardActive := faceCardActive p;
       faceStatusText := faceStatusText p;
       clarityScore := clarityScore p; confidenceScore := confidenceScore p;
       clarityFeedbackText := clarityFeedbackText p;
       confidenceFeedbackText := confidenceFeedbackText p |}.

(** [detectFace], from the line after the [await] (lines 351-389): what
    runs when the detector settles.  A detector that throws is logged
    and nothing else happens. *)
Definition detectFaceSettled (d : Detection) (a : App) : App :=
  match d with
  | FaceFound =>
      updateDetectionStatus (setFaceCanvasClear (setFaceDetected a true) false)
  | NoFace =>
      updateDetectionStatus (setFaceCanvasClear (setFaceDetected a false) true)
  | DetectorThrows => a
  end.

(** One timer tick of [detectFace] during which nothing else runs: the
    guard of line 343, then the detector, then the rest. *)
Definition detectFace (d : Detection) (a : App) : App :=
  if isRecording (state a) then detectFaceSettled d a else a.

(** [String(n)] for an integer. *)
Definition decimal (n : Z) : string :=
  DecimalString.NilZero.string_of_int (Z.to_int n).

(** [s.padStart(2, '0')]. *)
Definition padStart2 (s : string) : string :=
  match String.length s with
  | O => "00"
  | S O => "0" ++ s
  | _ => s
  end.

(** Lines 579-581: the minutes and seconds of [elapsedMs], which is
    [Date.now() - this.sessionStartTime].  [Math.floor] of a quotient is
    the floor division, [%] the remainder with the sign of the
    dividend. *)
Definition minutesOf (elapsedMs : Z) : Z := (elapsedMs / 1000) / 60.
Definition secondsOf (elapsedMs : Z) : Z := Z.rem (elapsedMs / 1000) 60.

(** Lines 583-584: the text of the session clock. *)
Definition sessionClock (elapsedMs : Z) : string :=
  padStart2 (decimal (minutesOf elapsedMs)) ++ ":" ++
  padStart2 (decimal (secondsOf elapsedMs)).

Section WithEngine.

Variable E : Engine.

(** [Math.round((x / 255) * 60)]: the division and the product can be
    inexact. *)
Definition toDb (x : JsNumber) : JsNumber :=
  match x with
  | Fin q => Math_round (Fin (fl E (fl E (q / 255) * 60)%Q))
  | other => other
  end.

(** [sum / bufferLength], which is [0 / 0] on an empty buffer. *)
Definition averageOf (frequencyData : list Byte.byte) : JsNumber :=
  match frequencyData with
  | [] => NaN
  | _ => Fin (fl E (inject_Z (sumOf frequencyData)
                    / inject_Z (Z.of_nat (List.length frequencyData)))%Q)
  end.

(** [Math.round(maxDb * 0.7)]. *)
Definition seventyPercent (maxDb : JsNumber) : JsNumber :=
  match maxDb with
  | Fin q => Math_round (Fin (fl E (q * pointSeven)%Q))
  | other => other
  end.

(** Lines 238-250: [finalDb] of one tick. *)
Definition finalDbOf (frequencyData : list Byte.byte) : JsNumber :=
  let displayDb := toDb (averageOf frequencyData) in
  let maxDb := toDb (ofZ (maxOf frequencyData)) in
  Math_max displayDb (seventyPercent maxDb).

(** One tick of [draw] on the bins the analyser gives. *)
Definition draw (frequencyData : list Byte.byte) (a : App) : App :=
  drawTick (finalDbOf frequencyData) a.

(** [total += score] for a score of the response: [null] counts as 0. *)
Definition addScore (total score : JsNumber) : JsNumber :=
  match score with
  | Fin _ => add E total score
  | _ => total
  end.

(** [evaluateWithBackend(hasFace, hasVoice)], from the point where the
    fetch settles (lines 446-472), on the instance as it is then. *)
Definition evaluateWithBackend (outcome : FetchOutcome) (a : App)
           (hasFace hasVoice : bool) (rng : Rng) : Evaluated :=
  match outcome with
  | Delivered {| Server.payload := Server.Evaluated _ ev |} =>
      let s := state a in
      ViaBackend
        {| isRecording := isRecording s;
           faceDetected := faceDetected s;
           voiceDetected := voiceDetected s;
           evaluationCount := evaluationCount s + 1;
           totalClarity := addScore (totalClarity s) (Server.clarity ev);
           totalConfidence := addScore (totalConfidence s) (Server.confidence ev);
           sessionDuration := sessionDuration s;
           backendAvailable := backendAvailable s |}
        {| shownClarity := onWire (Server.clarity ev);
           shownConfidence := onWire (Server.confidence ev);
           shownClarityFeedback := Server.clarityFeedback ev;
           shownConfidenceFeedback := Server.confidenceFeedback ev |}
  | _ =>
      let '(r, a', rng') := evaluateLocally E a hasFace hasVoice rng in
      ViaLocal r a' rng'
  end.

(** [evaluatePerformance()]: the flags are read from the instance [a] at
    the click; with a backend the rest runs when the fetch settles, on
    the instance [settled] as it is by then. *)
Definition evaluatePerformance (outcome : FetchOutcome) (a settled : App) (rng : Rng)
  : Evaluated :=
  let hasFace := faceDetected (state a) in
  let hasVoice := voiceDetected (state a) in
  if backendAvailable (state a) then
    evaluateWithBackend outcome settled hasFace hasVoice rng
  else
    let '(r, a', rng') := evaluateLocally E a hasFace hasVoice rng in
    ViaLocal r a' rng'.

End WithEngine.

End Capture.

(* ================================================================== *)
(** ** Definitions used to state the properties *)
(* ================================================================== *)

Import Js.

(** The mode rule in the words of the specification: both present,
    voice only, and everything else. *)
Definition specMode (hasFace hasVoice : bool) : string :=
  match hasFace, hasVoice with
  | true, true => "Human Face + Voice"
  | false, true => "Only Voice"
  | true, false => "No Voice"
  | false, false => "No Voice"
  end.

(** An engine for the examples: exact arithmetic, and no text that reads
    as a number.  The examples below convert no text to a number. *)
Definition exampleEngine : Engine :=
  {| fl := fun q => q;
     StringToNumber := fun _ => NaN;
     ArrayToNumber := fun _ => NaN |}.

(** A client whose model answers every prompt with the same parsed
    value. *)
Definition answering (v : JsValue) : Server.AiClient :=
  {| Server.genAI := true; Server.model := Some (fun _ => Server.Parsed v) |}.

(** The process started without [GEMINI_API_KEY]. *)
Definition unconfigured : Server.AiClient :=
  {| Server.genAI := false; Server.model := None |}.

(** The transcript of a request, in the words of the specification. *)
Definition emptyOrAbsent (v : JsValue) : Prop :=
  v = JStr "" \/ v = JUndefined.

Definition nonEmptyText (v : JsValue) : Prop :=
  exists s, v = JStr s /\ s <> "".

(** The value an object's property list gives a name. *)
Definition field (k : string) (props : list (string * JsValue)) : JsValue :=
  match lookup k props with
  | Some v => v
  | None => JUndefined
  end.

(** The thresholds of the emotion bands, and the band of a level: the
    number of thresholds the level exceeds. *)
Definition thresholds : list Z := [3; 10; 25; 40].

Definition band (finalDb : JsNumber) : nat :=
  List.length (filter (fun t => gt finalDb (ofZ t)) thresholds).

Definition bandLabels : list Client.Emotion :=
  [Client.Neutral; Client.Soft; Client.Calm; Client.Confident; Client.Energetic].

(** An integer score between two bounds. *)
Definition integerWithin (lo hi : Z) (x : JsNumber) : Prop :=
  exists z, x = ofZ z /\ lo <= z <= hi.

(** A draw source that always gives 1/2. *)
Definition halves : Rng := fun _ => 1 # 2.


(** The answer's confidence read as the specification states it for
    "Only Voice": the rounded half of the model's confidence [n]. *)
Definition halvedConfidence (n : JsNumber) (r : Server.Response) : Prop :=
  match Server.payload r with
  | Server.Evaluated _ ev => num_eq (Server.confidence ev) (Math_round (half n))
  | _ => True
  end.

(** The session statistics as the constructor sets them. *)
Definition statisticsReset (a : Client.App) : Prop :=
  Client.evaluationCount (Client.state a) = 0 /\
  Client.totalClarity (Client.state a) = ofZ 0 /\
  Client.totalConfidence (Client.state a) = ofZ 0.

(** Example requests: face and voice, voice only, neither. *)
Definition helloRequest : Server.EvaluateRequest :=
  {| Server.transcript := JStr "Hello";
     Server.hasFace := JBool true;
     Server.hasVoice := JBool true;
     Server.audioFeatures := JUndefined |}.

Definition voiceOnlyRequest : Server.EvaluateRequest :=
  {| Server.transcript := JStr "Hello";
     Server.hasFace := JBool false;
     Server.hasVoice := JBool true;
     Server.audioFeatures := JUndefined |}.

Definition silentRequest : Server.EvaluateRequest :=
  {| Server.transcript := JStr "User is speaking...";
     Server.hasFace := JBool true;
     Server.hasVoice := JBool false;
     Server.audioFeatures := JUndefined |}.

Definition emptyRequest : Server.EvaluateRequest :=
  {| Server.transcript := JStr "";
     Server.hasFace := JBool true;
     Server.hasVoice := JBool false;
     Server.audioFeatures := JObj [("duration", JNum (ofZ 3))] |}.

(** Example replies of the model, already parsed. *)
Definition replyProps (clarity confidence : JsNumber) : list (string * JsValue) :=
  [("clarity", JNum clarity);
   ("confidence", JNum confidence);
   ("clarityFeedback", JStr "Slow down a little.");
   ("confidenceFeedback", JStr "Keep your eyes on the camera.");
   ("analysis", JStr "A steady delivery.")].

Definition replyWith (clarity confidence : JsNumber) : JsValue :=
  JObj (replyProps clarity confidence).

(** The instance after a successful [startPractice], nothing evaluated
    yet. *)
Definition recording : Client.App :=
  {| Client.stream := true;
     Client.audioContext := true;
     Client.faceDetectionInterval := true;
     Client.sessionInterval := true;
     Client.mediaRecorder := Some Client.RecRecording;
     Client.currentEmotion := None;
     Client.state :=
       {| Client.isRecording := true;
          Client.faceDetected := false;
          Client.voiceDetected := false;
          Client.evaluationCount := 0;
          Client.totalClarity := ofZ 0;
          Client.totalConfidence := ofZ 0;
          Client.sessionDuration := ofZ 0;
          Client.backendAvailable := false |};
     Client.page :=
       {| Client.videoHasSource := true;
          Client.overlayHidden := true;
          Client.faceCanvasClear := true;
          Client.startBtnDisabled := true;
          Client.stopBtnDisabled := false;
          Client.evaluateBtnDisabled := false;
          Client.systemStatusText := "Recording (Local Mode)...";
          Client.faceCardActive := false;
          Client.faceStatusText := "Not Detected";
          Client.clarityScore := ofZ 0;
          Client.confidenceScore := ofZ 0;
          Client.clarityFeedbackText := JUndefined;
          Client.confidenceFeedbackText := JUndefined |} |}.

(** The same instance after two local evaluations made with neither
    face nor voice detected. *)
Definition practised : Client.App :=
  let '(_, a1, rng1) :=
    Client.evaluateLocally exampleEngine recording false false halves in
  let '(_, a2, _) :=
    Client.evaluateLocally exampleEngine a1 false false rng1 in
  a2.

(** Rounding to the nearest double, as far as the proofs below need it:
    it is monotone, and it leaves the integers up to 2^53 as they are. *)
Definition roundsToNearest (E : Engine) : Prop :=
  (forall x y : Q, (x <= y)%Q -> (fl E x <= fl E y)%Q) /\
  (forall z : Z, Z.abs z <= 2 ^ 53 -> (fl E (inject_Z z) == inject_Z z)%Q).

(** Every draw, multiplied by six and rounded, stays within [0, 6): the
    index into a list of six tips exists.  (A double below 1 is at most
    1 - 2^-53, and six times that rounds below 6.) *)
Definition sixfoldInRange (E : Engine) (rng : Rng) : Prop :=
  forall n, (0 <= fl E (rng n * 6))%Q /\ (fl E (rng n * 6) < 6)%Q.

(** A request that passes the first guard of [/api/evaluate]. *)
Definition passesValidation (req : Server.EvaluateRequest) : Prop :=
  ToBoolean (Server.transcript req) || ToBoolean (Server.hasVoice req) = true.

(** A client with both handles set. *)
Definition configured (client : Server.AiClient) (m : Server.Prompt -> Server.AiReply) : Prop :=
  Server.genAI client = true /\ Server.model client = Some m.

(** A model that rejects every call with the same message. *)
Definition rejecting (message : string) : Server.AiClient :=
  {| Server.genAI := true;
     Server.model := Some (fun _ => Server.Rejects (ThrownError message)) |}.

(** A request whose transcript is an object with a [toString] entry. *)
Definition oddRequest : Server.EvaluateRequest :=
  {| Server.transcript := JObj [("toString", JNum (ofZ 1))];
     Server.hasFace := JBool true;
     Server.hasVoice := JBool true;
     Server.audioFeatures := JUndefined |}.

(* ================================================================== *)
(** ** Properties of the server *)
(* ================================================================== *)

Section ServerProperties.

Import Server Texts.

Variable E : Engine.

(** The first guard alone decides the 400 answer. *)
Lemma evaluate_rejects_missing_input (client : AiClient) (req : EvaluateRequest) :
  ToBoolean (transcript req) = false ->
  ToBoolean (hasVoice req) = false ->
  evaluateHandler E client req =
    {| status := 400; payload := Failure (ErrText "No speech data provided") |}.
Proof.
  intros Ht Hv. unfold evaluateHandler. rewrite Ht, Hv. reflexivity.
Qed.

(** Past the first guard, the status is 503, 500 or 200. *)
Lemma evaluate_status_past_guard (client : AiClient) (req : EvaluateRequest) :
  ToBoolean (transcript req) || ToBoolean (hasVoice req) = true ->
  status (evaluateHandler E client req) = 503 \/
  status (evaluateHandler E client req) = 500 \/
  status (evaluateHandler E client req) = 200.
Proof.
  intros Hvalid. unfold evaluateHandler.
  replace (negb (ToBoolean (transcript req)) && negb (ToBoolean (hasVoice req)))
    with false by (rewrite <- negb_orb, Hvalid; reflexivity).
  destruct (genAI client); [| now left].
  destruct (model client) as [m|]; [| now left].
  destruct (evaluateBody E m req) as [e|r] eqn:Hbody; [right; now left |].
  right; right.
  unfold evaluateBody in Hbody.
  repeat match type of Hbody with
         | bind ?c _ = inr _ => destruct c; simpl in Hbody; [discriminate |]
         end.
  inversion Hbody. reflexivity.
Qed.

(** *** How a successful answer of [/api/evaluate] is built *)

Lemma deriveMode_cases (f v : JsValue) :
  deriveMode f v =
    if ToBoolean v then (if ToBoolean f then faceAndVoice else onlyVoice)
    else noVoice.
Proof.
  unfold deriveMode. destruct (ToBoolean f), (ToBoolean v); reflexivity.
Qed.

Lemma adjust_faceAndVoice (t : Target) :
  applyModeAdjustments E faceAndVoice t = inr t.
Proof. reflexivity. Qed.

Lemma adjust_noVoice (t t' : Target) :
  applyModeAdjustments E noVoice t = inr t' ->
  exists props,
    t = TObject props /\
    t' = TObject (("confidenceFeedback", JStr startSpeakingAndCamera)
                  :: ("clarityFeedback", JStr speakIntoMicrophone)
                  :: ("confidence", JNum (ofZ 0))
                  :: ("clarity", JNum (ofZ 0)) :: props).
Proof.
  destruct t as [| |props]; cbn; intros H; try discriminate.
  exists props. split; [reflexivity |]. unfold ret in H. congruence.
Qed.

Lemma adjust_onlyVoice (t t' : Target) :
  applyModeAdjustments E onlyVoice t = inr t' ->
  exists props c n,
    t = TObject props /\
    getProp t "confidence" = inr c /\
    ToNumber E c = inr n /\
    t' = TObject (("confidenceFeedback", JStr enableCamera)
                  :: ("confidence", JNum (Math_round (half n))) :: props).
Proof.
  destruct t as [| |props]; cbn -[ToNumber getProp]; intros H.
  - discriminate.
  - destruct (ToNumber E JUndefined) as [e|n] eqn:Hn; cbn in H; discriminate.
  - destruct (getProp (TObject props) "confidence") as [e|c] eqn:Hc;
      cbn -[ToNumber] in H; [discriminate |].
    destruct (ToNumber E c) as [e|n] eqn:Hn; cbn in H; [discriminate |].
    exists props, c, n. unfold ret in H. repeat split; congruence.
Qed.

(** A 200 answer comes from a parsed reply, adjusted for the mode, whose
    two scores converted to numbers and were clamped. *)
Lemma evaluateBody_inr (m : Prompt -> AiReply) (req : EvaluateRequest) (r : Response) :
  evaluateBody E m req = inr r ->
  exists v t cl ncl co nco,
    toPrimitiveThrows (shownTranscript req) = false /\
    m (evaluatePrompt req) = Parsed v /\
    applyModeAdjustments E (deriveMode (hasFace req) (hasVoice req)) (asTarget v)
      = inr t /\
    getProp t "clarity" = inr cl /\ ToNumber E cl = inr ncl /\
    getProp t "confidence" = inr co /\ ToNumber E co = inr nco /\
    exists clf cof an,
      getProp t "clarityFeedback" = inr clf /\
      getProp t "confidenceFeedback" = inr cof /\
      getProp t "analysis" = inr an /\
      r = {| status := 200;
             payload := Evaluated (deriveMode (hasFace req) (hasVoice req))
               {| clarity := Math_min (ofZ 10) (Math_max (ofZ 0) ncl);
                  confidence := Math_min (ofZ 10) (Math_max (ofZ 0) nco);
                  clarityFeedback := clf; confidenceFeedback := cof;
                  analysis := an |} |}.
Proof.
  unfold evaluateBody, interpolate, clamp. intros H.
  destruct (toPrimitiveThrows (shownTranscript req)) eqn:Hi; [discriminate |].
  cbn [bind ret] in H.
  destruct (m (evaluatePrompt req)) as [e| |v] eqn:Hm; try discriminate.
  cbn [bind ret] in H.
  destruct (applyModeAdjustments E _ (asTarget v)) as [e|t] eqn:Ht; [discriminate |].
  cbn [bind] in H.
  destruct (getProp t "clarity") as [e|cl] eqn:Hcl; [discriminate |].
  cbn [bind] in H.
  destruct (ToNumber E cl) as [e|ncl] eqn:Hncl; [discriminate |].
  cbn [bind ret] in H.
  destruct (getProp t "confidence") as [e|co] eqn:Hco; [discriminate |].
  cbn [bind] in H.
  destruct (ToNumber E co) as [e|nco] eqn:Hnco; [discriminate |].
  cbn [bind ret] in H.
  destruct (getProp t "clarityFeedback") as [e|clf] eqn:Hclf; [discriminate |].
  cbn [bind] in H.
  destruct (getProp t "confidenceFeedback") as [e|cof] eqn:Hcof; [discriminate |].
  cbn [bind] in H.
  destruct (getProp t "analysis") as [e|an] eqn:Han; [discriminate |].
  cbn [bind ret] in H.
  exists v, t, cl, ncl, co, nco. repeat (split; [assumption || reflexivity |]).
  exists clf, cof, an. repeat (split; [assumption || reflexivity |]).
  unfold ret in H. inversion H. reflexivity.
Qed.

(** A 200 answer of the handler is the value of [evaluateBody]. *)
Lemma evaluateHandler_evaluated (client : AiClient) (req : EvaluateRequest)
      (md : string) (ev : Evaluation) :
  payload (evaluateHandler E client req) = Evaluated md ev ->
  exists m,
    genAI client = true /\ model client = Some m /\
    evaluateBody E m req = inr (evaluateHandler E client req).
Proof.
  unfold evaluateHandler.
  destruct (negb (ToBoolean (transcript req)) && negb (ToBoolean (hasVoice req)));
    [discriminate |].
  destruct (genAI client); [| discriminate].
  destruct (model client) as [m|]; [| discriminate].
  destruct (evaluateBody E m req) as [e|r] eqn:Hb; [discriminate |].
  intros _. exists m. auto.
Qed.

(** Decide the comparisons of property names that are literals. *)
Ltac name_tests :=
  repeat match goal with
         | |- context [String.eqb ?a ?b] =>
             let r := eval vm_compute in (String.eqb a b) in
             change (String.eqb a b) with r
         end;
  cbv iota.

Lemma field_cons (k k' : string) (v : JsValue) (props : list (string * JsValue)) :
  field k ((k', v) :: props) = if String.eqb k k' then v else field k props.
Proof. unfold field. cbn. destruct (String.eqb k k'); reflexivity. Qed.

Lemma getProp_field (props : list (string * JsValue)) (k : string) :
  getProp (TObject props) k = inr (field k props).
Proof. unfold getProp, field. destruct (lookup k props); reflexivity. Qed.

(** The answer in mode "No Voice", once a reply parsed to an object or
    an array. *)
Lemma evaluateBody_noVoice (m : Prompt -> AiReply) (req : EvaluateRequest)
      (v : JsValue) (props : list (string * JsValue)) :
  ToBoolean (hasVoice req) = false ->
  toPrimitiveThrows (shownTranscript req) = false ->
  m (evaluatePrompt req) = Parsed v ->
  asTarget v = TObject props ->
  evaluateBody E m req =
    inr {| status := 200;
           payload := Evaluated noVoice
             {| clarity := ofZ 0; confidence := ofZ 0;
                clarityFeedback := JStr speakIntoMicrophone;
                confidenceFeedback := JStr startSpeakingAndCamera;
                analysis := field "analysis" props |} |}.
Proof.
  intros Hv Hi Hm Hp.
  unfold evaluateBody, interpolate.
  rewrite Hi, Hm, Hp, deriveMode_cases, Hv. cbn.
  unfold field. destruct (lookup "analysis" props); reflexivity.
Qed.

(** The answer in mode "Only Voice". *)
Lemma evaluateBody_onlyVoice (m : Prompt -> AiReply) (req : EvaluateRequest)
      (v : JsValue) (props : list (string * JsValue)) (ncl nco : JsNumber) :
  ToBoolean (hasFace req) = false ->
  ToBoolean (hasVoice req) = true ->
  toPrimitiveThrows (shownTranscript req) = false ->
  m (evaluatePrompt req) = Parsed v ->
  asTarget v = TObject props ->
  ToNumber E (field "clarity" props) = inr ncl ->
  ToNumber E (field "confidence" props) = inr nco ->
  evaluateBody E m req =
    inr {| status := 200;
           payload := Evaluated onlyVoice
             {| clarity := Math_min (ofZ 10) (Math_max (ofZ 0) ncl);
                confidence :=
                  Math_min (ofZ 10) (Math_max (ofZ 0) (Math_round (half nco)));
                clarityFeedback := field "clarityFeedback" props;
                confidenceFeedback := JStr enableCamera;
                analysis := field "analysis" props |} |}.
Proof.
  intros Hf Hv Hi Hm Hp Hcl Hco.
  unfold evaluateBody, interpolate, clamp.
  rewrite Hi, Hm, Hp, deriveMode_cases, Hv, Hf.
  unfold applyModeAdjustments.
  replace (String.eqb onlyVoice onlyVoice) with true by reflexivity.
  cbn [bind ret]. rewrite getProp_field. cbn [bind]. rewrite Hco.
  cbn [bind ret setProp]. rewrite !getProp_field, !field_cons. name_tests.
  cbn [bind ret]. rewrite Hcl. reflexivity.
Qed.

(** The answer in mode "Human Face + Voice". *)
Lemma evaluateBody_faceAndVoice (m : Prompt -> AiReply) (req : EvaluateRequest)
      (v : JsValue) (props : list (string * JsValue)) (ncl nco : JsNumber) :
  ToBoolean (hasFace req) = true ->
  ToBoolean (hasVoice req) = true ->
  toPrimitiveThrows (shownTranscript req) = false ->
  m (evaluatePrompt req) = Parsed v ->
  asTarget v = TObject props ->
  ToNumber E (field "clarity" props) = inr ncl ->
  ToNumber E (field "confidence" props) = inr nco ->
  evaluateBody E m req =
    inr {| status := 200;
           payload := Evaluated faceAndVoice
             {| clarity := Math_min (ofZ 10) (Math_max (ofZ 0) ncl);
                confidence := Math_min (ofZ 10) (Math_max (ofZ 0) nco);
                clarityFeedback := field "clarityFeedback" props;
                confidenceFeedback := field "confidenceFeedback" props;
                analysis := field "analysis" props |} |}.
Proof.
  intros Hf Hv Hi Hm Hp Hcl Hco.
  unfold evaluateBody, interpolate, clamp.
  rewrite Hi, Hm, Hp, deriveMode_cases, Hv, Hf.
  cbn [bind ret]. rewrite adjust_faceAndVoice.
  cbn [bind ret]. rewrite !getProp_field. cbn [bind ret]. rewrite Hcl.
  cbn [bind ret]. rewrite Hco. reflexivity.
Qed.

(** Past both guards the handler answers what [evaluateBody] returns. *)
Lemma evaluateHandler_body (client : AiClient) (req : EvaluateRequest)
      (m : Prompt -> AiReply) (r : Response) :
  ToBoolean (transcript req) || ToBoolean (hasVoice req) = true ->
  genAI client = true -> model client = Some m ->
  evaluateBody E m req = inr r ->
  evaluateHandler E client req = r.
Proof.
  intros Hvalid Hg Hm Hb. unfold evaluateHandler.
  replace (negb (ToBoolean (transcript req)) && negb (ToBoolean (hasVoice req)))
    with false by (rewrite <- negb_orb, Hvalid; reflexivity).
  rewrite Hg, Hm, Hb. reflexivity.
Qed.

(** *** Arithmetic of the final clamp *)



Lemma clamp_id (n : JsNumber) :
  inRange 0 10 n -> num_eq (Math_min (ofZ 10) (Math_max (ofZ 0) n)) n.
Proof.
  destruct n as [| | |q]; cbn; try tauto.
  intros [H0 H10].
  apply Qle_bool_iff in H0. rewrite H0. cbn.
  destruct (Qle_bool (inject_Z 10) q) eqn:Hq; cbn.
  - apply Qle_bool_iff in Hq. apply Qle_antisym; assumption.
  - reflexivity.
Qed.



Lemma getProp_object (t : Target) (k : string) (n : JsNumber) :
  getProp t k = inr (JNum n) ->
  exists props, t = TObject props /\ field k props = JNum n.
Proof.
  destruct t as [| |props]; cbn; try discriminate.
  intros H. exists props. split; [reflexivity |].
  unfold field. destruct (lookup k props); unfold ret in H; congruence.
Qed.

Lemma shownTranscript_truthy (req : EvaluateRequest) :
  ToBoolean (transcript req) = true -> shownTranscript req = transcript req.
Proof. intros H. unfold shownTranscript, orElse. rewrite H. reflexivity. Qed.

(** *** The scores of a successful answer *)

(** C3. With a falsy [hasVoice] the mode is "No Voice", and every
    successful answer carries clarity 0, confidence 0 and the two fixed
    sentences, whatever the model returned; the answer is successful as
    soon as the reply parsed to an object (or an array). *)
Theorem no_voice_answer (client : AiClient) (req : EvaluateRequest) :
  ToBoolean (hasVoice req) = false ->
  (forall md ev,
      payload (evaluateHandler E client req) = Evaluated md ev ->
      md = noVoice /\
      clarity ev = ofZ 0 /\ confidence ev = ofZ 0 /\
      clarityFeedback ev = JStr speakIntoMicrophone /\
      confidenceFeedback ev = JStr startSpeakingAndCamera)
  /\
  (forall m v props,
      ToBoolean (transcript req) = true ->
      toPrimitiveThrows (transcript req) = false ->
      genAI client = true -> model client = Some m ->
      m (evaluatePrompt req) = Parsed v ->
      asTarget v = TObject props ->
      evaluateHandler E client req =
        {| status := 200;
           payload := Evaluated noVoice
             {| clarity := ofZ 0; confidence := ofZ 0;
                clarityFeedback := JStr speakIntoMicrophone;
                confidenceFeedback := JStr startSpeakingAndCamera;
                analysis := field "analysis" props |} |}).
Proof.
  intros Hv. split.
  - intros md ev Hp.
    destruct (evaluateHandler_evaluated client req md ev Hp) as (m & _ & _ & Hb).
    destruct (evaluateBody_inr m req _ Hb)
      as (v & t & _ & _ & _ & _ & Hi & Hm & Ht & _).
    rewrite deriveMode_cases, Hv in Ht.
    destruct (adjust_noVoice _ _ Ht) as (props & Hobj & _).
    rewrite (evaluateBody_noVoice m req v props Hv Hi Hm Hobj) in Hb.
    injection Hb as Hb. rewrite <- Hb in Hp. cbn in Hp.
    injection Hp as <- <-. cbn. auto.
  - intros m v props Ht Hi Hg Hmod Hm Hobj.
    apply (evaluateHandler_body client req m); auto.
    + rewrite Ht. reflexivity.
    + apply (evaluateBody_noVoice m req v props); auto.
      rewrite shownTranscript_truthy; assumption.
Qed.

(** C4, amended. In mode "Only Voice", when the model's confidence is a
    number [n], a successful answer carries [round(n * 0.5)] clamped to
    [0, 10], which is [round(n * 0.5)] itself when that value lies within
    0..10, and the fixed camera sentence as confidence feedback; the
    answer is successful as soon as the clarity converts to a number. *)
Theorem only_voice_confidence (client : AiClient) (req : EvaluateRequest)
        (m : Prompt -> AiReply) (v : JsValue) (n : JsNumber) :
  ToBoolean (hasFace req) = false ->
  ToBoolean (hasVoice req) = true ->
  model client = Some m ->
  m (evaluatePrompt req) = Parsed v ->
  getProp (asTarget v) "confidence" = inr (JNum n) ->
  (forall md ev,
      payload (evaluateHandler E client req) = Evaluated md ev ->
      md = onlyVoice /\
      confidence ev = Math_min (ofZ 10) (Math_max (ofZ 0) (Math_round (half n))) /\
      (inRange 0 10 (Math_round (half n)) ->
       num_eq (confidence ev) (Math_round (half n))) /\
      confidenceFeedback ev = JStr enableCamera)
  /\
  (forall cl ncl,
      genAI client = true ->
      toPrimitiveThrows (shownTranscript req) = false ->
      getProp (asTarget v) "clarity" = inr cl ->
      ToNumber E cl = inr ncl ->
      success (evaluateHandler E client req) = true).
Proof.
  intros Hf Hv Hmod Hm Hc.
  destruct (getProp_object _ _ _ Hc) as (props & Hobj & Hfield).
  assert (Hco : ToNumber E (field "confidence" props) = inr n)
    by (rewrite Hfield; reflexivity).
  assert (Hvalid : ToBoolean (transcript req) || ToBoolean (hasVoice req) = true)
    by (rewrite Hv; apply orb_true_r).
  split.
  - intros md ev Hp.
    destruct (evaluateHandler_evaluated client req md ev Hp) as (m' & _ & Hmod' & Hb).
    assert (m' = m) by congruence. subst m'.
    destruct (evaluateBody_inr m req _ Hb)
      as (v' & t & cl & ncl & _ & _ & Hi & Hm' & Ht & Hcl & Hncl & _).
    assert (v' = v) by congruence. subst v'.
    rewrite deriveMode_cases, Hv, Hf, Hobj in Ht.
    destruct (adjust_onlyVoice _ _ Ht) as (props' & c' & n' & Hobj' & _ & _ & Ht').
    injection Hobj' as <-. subst t.
    rewrite getProp_field, !field_cons in Hcl. revert Hcl. name_tests. intros Hcl.
    injection Hcl as <-.
    rewrite (evaluateBody_onlyVoice m req v props ncl n Hf Hv Hi Hm Hobj Hncl Hco)
      in Hb.
    injection Hb as Hb. rewrite <- Hb in Hp. cbn in Hp.
    injection Hp as <- <-. cbn [confidence confidenceFeedback].
    repeat split. apply clamp_id.
  - intros cl ncl Hg Hi Hcl Hncl.
    rewrite Hobj, getProp_field in Hcl. injection Hcl as <-.
    rewrite (evaluateHandler_body client req m _ Hvalid Hg Hmod
               (evaluateBody_onlyVoice m req v props ncl n Hf Hv Hi Hm Hobj Hncl Hco)).
    reflexivity.
Qed.


(** *** Validation and configuration *)

(** C5. A body whose transcript is empty or absent and whose [hasVoice] is
    false gets the 400 answer, whatever the other fields and the client;
    a body with a non-empty transcript or with [hasVoice] true never gets
    a 400. *)
Theorem evaluate_validation (client : AiClient) (req : EvaluateRequest) :
  (emptyOrAbsent (transcript req) -> hasVoice req = JBool false ->
   evaluateHandler E client req =
     {| status := 400; payload := Failure (ErrText "No speech data provided") |})
  /\
  (nonEmptyText (transcript req) \/ hasVoice req = JBool true ->
   status (evaluateHandler E client req) <> 400).
Proof.
  split.
  - intros Ht Hv. apply evaluate_rejects_missing_input.
    + destruct Ht as [Ht | Ht]; rewrite Ht; reflexivity.
    + rewrite Hv. reflexivity.
  - intros Hvalid.
    assert (Hor : ToBoolean (transcript req) || ToBoolean (hasVoice req) = true).
    { destruct Hvalid as [[s [Hs Hne]] | Hv].
      - rewrite Hs. cbn. apply String.eqb_neq in Hne. rewrite Hne. reflexivity.
      - rewrite Hv. cbn. apply orb_true_r. }
    destruct (evaluate_status_past_guard client req Hor) as [H | [H | H]];
      rewrite H; discriminate.
Qed.

(** C10. The missing-input guard runs before the configuration guard: a
    request failing validation is answered 400 by every client, also one
    that was never configured, and a 503 is given exactly to the requests
    that pass validation while the client is not configured. *)
Theorem validation_precedes_configuration (client : AiClient) (req : EvaluateRequest) :
  (ToBoolean (transcript req) = false -> ToBoolean (hasVoice req) = false ->
   status (evaluateHandler E client req) = 400 /\
   status (evaluateHandler E unconfigured req) = 400)
  /\
  (status (evaluateHandler E client req) = 503 <->
   (ToBoolean (transcript req) = true \/ ToBoolean (hasVoice req) = true) /\
   (genAI client = false \/ model client = None)).
Proof.
  split.
  - intros Ht Hv. split; rewrite evaluate_rejects_missing_input; auto.
  - unfold evaluateHandler.
    destruct (ToBoolean (transcript req)), (ToBoolean (hasVoice req)); cbn;
      try (split; [discriminate | intros [[H | H] _]; discriminate]);
      destruct (genAI client); cbn;
      try (split; [intros _; split; auto | reflexivity]);
      (destruct (model client) as [m|];
       [| split; [intros _; split; auto | reflexivity]]);
      (split; [| intros [_ [H | H]]; discriminate]);
      (destruct (evaluateBody E m req) as [e|r] eqn:Hb; cbn; [discriminate |]);
      apply evaluateBody_inr in Hb;
      destruct Hb as (v & t & cl & ncl & co & nco & _ & _ & _ & _ & _ & _ & _
                      & clf & cof & an & _ & _ & _ & Hr);
      rewrite Hr; discriminate.
Qed.

(** *** The feedback gateway *)




End ServerProperties.

(* ================================================================== *)
(** ** Properties of the browser *)
(* ================================================================== *)

Section ClientProperties.

Import Client Texts.

Variable E : Engine.

(** *** The draws *)

Lemma wellFormed_next (rng : Rng) :
  wellFormed rng -> wellFormed (snd (Math_random rng)).
Proof. intros H n. apply (H (S n)). Qed.

Lemma pickTip_rng (tips : list string) (rng : Rng) :
  snd (pickTip E tips rng) = snd (Math_random rng).
Proof. reflexivity. Qed.

Lemma calculateClarity_rng (s : CaptureState) (rng : Rng) :
  snd (calculateClarity E s rng) = snd (Math_random rng).
Proof. reflexivity. Qed.

Lemma calculateConfidence_wellFormed (s : CaptureState) (rng : Rng) :
  wellFormed rng -> wellFormed (snd (calculateConfidence E s rng)).
Proof.
  intros H. unfold calculateConfidence.
  destruct (faceDetected s), (voiceDetected s); cbn; intros n; apply H.
Qed.

Lemma minimumScore_rng (k : Z) (rng : Rng) :
  snd (minimumScore k rng) = snd (Math_random rng).
Proof. reflexivity. Qed.

(** A draw of [0, 1), doubled and rounded, is 0, 1 or 2. *)
Lemma minimumScore_range (k : Z) (rng : Rng) :
  wellFormed rng -> integerWithin k (k + 2) (fst (minimumScore k rng)).
Proof.
  intros H. destruct (H O) as [H0 H1].
  unfold minimumScore, Math_random. cbn [fst].
  exists (k + Qfloor (rng O * 2 + (1 # 2))). split; [reflexivity |].
  assert (Hlo : 0 <= Qfloor (rng O * 2 + (1 # 2))).
  { apply Z.le_trans with (Qfloor (1 # 2)); [discriminate |].
    apply Qfloor_resp_le. lra. }
  assert (Hhi : Qfloor (rng O * 2 + (1 # 2)) <= 2).
  { apply Z.le_trans with (Qfloor (5 # 2)); [| discriminate].
    apply Qfloor_resp_le. lra. }
  lia.
Qed.

Lemma localScores_wellFormed (s : CaptureState) (hasFace hasVoice : bool) (rng : Rng) :
  wellFormed rng -> wellFormed (snd (localScores E s hasFace hasVoice rng)).
Proof.
  intros H. unfold localScores.
  destruct (hasFace && hasVoice); [| destruct (negb hasFace && hasVoice)].
  - destruct (calculateClarity E s rng) as [cl rng1] eqn:H1.
    destruct (calculateConfidence E s rng1) as [co rng2] eqn:H2. cbn.
    change rng2 with (snd (co, rng2)). rewrite <- H2.
    apply calculateConfidence_wellFormed.
    change rng1 with (snd (cl, rng1)). rewrite <- H1, calculateClarity_rng.
    apply wellFormed_next, H.
  - destruct (calculateClarity E s rng) as [cl rng1] eqn:H1.
    destruct (calculateConfidence E s rng1) as [co rng2] eqn:H2. cbn.
    change rng2 with (snd (co, rng2)). rewrite <- H2.
    apply calculateConfidence_wellFormed.
    change rng1 with (snd (cl, rng1)). rewrite <- H1, calculateClarity_rng.
    apply wellFormed_next, H.
  - cbn. intros n. apply H.
Qed.

Lemma generateFeedback_wellFormed (r : LocalResult) (a : App) (rng : Rng) :
  wellFormed rng -> wellFormed (snd (generateFeedback E r a rng)).
Proof.
  intros H. unfold generateFeedback.
  destruct (String.eqb (mode r) onlyVoice); [| destruct (String.eqb (mode r) noVoice)];
    cbn; intros n; apply H.
Qed.

(** The scores of one call are those of [localScores] on the state the
    call finds. *)
Lemma evaluateLocally_result (a : App) (hasFace hasVoice : bool) (rng : Rng) :
  fst (fst (evaluateLocally E a hasFace hasVoice rng)) =
  fst (localScores E (state a) hasFace hasVoice rng).
Proof.
  unfold evaluateLocally.
  destruct (localScores E (state a) hasFace hasVoice rng) as [r rng1].
  destruct (generateFeedback E r _ rng1). reflexivity.
Qed.

Lemma evaluateLocally_wellFormed (a : App) (hasFace hasVoice : bool) (rng : Rng) :
  wellFormed rng -> wellFormed (snd (evaluateLocally E a hasFace hasVoice rng)).
Proof.
  intros H. unfold evaluateLocally.
  pose proof (localScores_wellFormed (state a) hasFace hasVoice rng H) as H1.
  destruct (localScores E (state a) hasFace hasVoice rng) as [r rng1].
  cbn [snd] in H1.
  match goal with
  | |- context [generateFeedback E r ?x rng1] =>
      pose proof (generateFeedback_wellFormed r x rng1 H1) as H2;
      destruct (generateFeedback E r x rng1) as [a3 rng2]
  end.
  exact H2.
Qed.

(** One call in the case where neither voice branch is taken. *)
Lemma localScores_noVoice (s : CaptureState) (hasFace : bool) (rng : Rng) :
  wellFormed rng ->
  mode (fst (localScores E s hasFace false rng)) = noVoice /\
  integerWithin 5 7 (clarity (fst (localScores E s hasFace false rng))) /\
  integerWithin 3 5 (confidence (fst (localScores E s hasFace false rng))).
Proof.
  intros H. unfold localScores.
  rewrite andb_false_r, andb_false_r.
  pose proof (minimumScore_range 5 rng H) as Hc.
  pose proof (wellFormed_next rng H) as Hw.
  rewrite <- (minimumScore_rng 5) in Hw.
  destruct (minimumScore 5 rng) as [cl rng1]. cbn [fst snd] in Hc, Hw.
  pose proof (minimumScore_range 3 rng1 Hw) as Hk.
  destruct (minimumScore 3 rng1) as [co rng2]. cbn [fst snd] in Hk.
  cbn [fst mode clarity confidence]. auto.
Qed.

(** C7. Over any session of calls to the local evaluator, and any draws
    of [0, 1), each call made with [hasVoice] false (the branch taken when
    neither the face-and-voice nor the voice-only test holds) is in mode
    "No Voice" and produces an integer clarity within 5..7 and an integer
    confidence within 3..5. *)
Theorem local_no_voice_ranges (calls : list (bool * bool)) (a : App) (rng : Rng) :
  wellFormed rng ->
  Forall2 (fun call r =>
             snd call = false ->
             mode r = noVoice /\
             integerWithin 5 7 (clarity r) /\
             integerWithin 3 5 (confidence r))
          calls (evaluateLocallyAll E calls a rng).
Proof.
  revert a rng. induction calls as [| [hasFace hasVoice] rest IH]; intros a rng H.
  - constructor.
  - cbn [evaluateLocallyAll].
    pose proof (evaluateLocally_result a hasFace hasVoice rng) as Hr.
    pose proof (evaluateLocally_wellFormed a hasFace hasVoice rng H) as Hw.
    destruct (evaluateLocally E a hasFace hasVoice rng) as [[r a'] rng'].
    cbn [fst snd] in Hr, Hw. constructor.
    + cbn [snd]. intros ->. rewrite Hr. apply localScores_noVoice, H.
    + apply IH, Hw.
Qed.

(** *** The emotion bands *)

Lemma gt_mono (x : JsNumber) (a b : Z) :
  b <= a -> gt x (ofZ a) = true -> gt x (ofZ b) = true.
Proof.
  intros Hba. destruct x as [| | |q]; cbn; try tauto.
  rewrite !negb_true_iff. intros Ha.
  destruct (Qle_bool q (inject_Z b)) eqn:Hb; [| reflexivity].
  apply Qle_bool_iff in Hb.
  assert (Hle : (q <= inject_Z a)%Q).
  { apply Qle_trans with (inject_Z b); [exact Hb |].
    rewrite <- Zle_Qle. exact Hba. }
  apply Qle_bool_iff in Hle. congruence.
Qed.

(** C8, amended. The four thresholds 3, 10, 25 and 40 cut the level into
    five bands, and the emotion is the label of the band the level falls
    in: Neutral up to 3, Soft above 3, Calm above 10, Confident above 25,
    Energetic above 40; each of the five labels is taken. *)
Theorem emotion_bands (finalDb : JsNumber) :
  (band finalDb < 5)%nat /\
  emotionTone finalDb = nth (band finalDb) bandLabels Neutral /\
  Forall (fun e => exists level, emotionTone level = e) bandLabels.
Proof.
  split; [| split].
  - unfold band, thresholds. cbn [filter].
    destruct (gt finalDb (ofZ 3)), (gt finalDb (ofZ 10)),
             (gt finalDb (ofZ 25)), (gt finalDb (ofZ 40)); cbn; lia.
  - unfold band, thresholds, emotionTone. cbn [filter].
    destruct (gt finalDb (ofZ 40)) eqn:H40.
    + rewrite (gt_mono finalDb 40 25), (gt_mono finalDb 40 10),
        (gt_mono finalDb 40 3) by (assumption || lia). reflexivity.
    + destruct (gt finalDb (ofZ 25)) eqn:H25.
      * rewrite (gt_mono finalDb 25 10), (gt_mono finalDb 25 3)
          by (assumption || lia). reflexivity.
      * destruct (gt finalDb (ofZ 10)) eqn:H10.
        -- rewrite (gt_mono finalDb 10 3) by (assumption || lia). reflexivity.
        -- destruct (gt finalDb (ofZ 3)); reflexivity.
  - repeat constructor.
    + exists (ofZ 0). reflexivity.
    + exists (ofZ 5). reflexivity.
    + exists (ofZ 20). reflexivity.
    + exists (ofZ 30). reflexivity.
    + exists (ofZ 50). reflexivity.
Qed.

(** *** Stopping a session *)

(** C9, amended. [stopPractice] sets [isRecording], [faceDetected] and
    [voiceDetected] to false and leaves the evaluation count, both totals,
    the session duration, the backend flag and the current emotion as
    they were. *)
Theorem stopPractice_state (a : App) :
  isRecording (state (stopPractice a)) = false /\
  faceDetected (state (stopPractice a)) = false /\
  voiceDetected (state (stopPractice a)) = false /\
  evaluationCount (state (stopPractice a)) = evaluationCount (state a) /\
  totalClarity (state (stopPractice a)) = totalClarity (state a) /\
  totalConfidence (state (stopPractice a)) = totalConfidence (state a) /\
  sessionDuration (state (stopPractice a)) = sessionDuration (state a) /\
  backendAvailable (state (stopPractice a)) = backendAvailable (state a) /\
  currentEmotion (stopPractice a) = currentEmotion a.
Proof. repeat split. Qed.

End ClientProperties.

(* ================================================================== *)
(** ** The mode, on both sides *)
(* ================================================================== *)

(** C1. For every pair of booleans the mode is one of the three labels:
    both true gives "Human Face + Voice", voice without face gives "Only
    Voice", and no voice gives "No Voice" with or without a face.  The
    handler derives it so, a successful answer carries it, and the local
    evaluator of the browser derives the same. *)
Theorem mode_derivation (E : Engine) (client : Server.AiClient)
        (transcript audioFeatures : JsValue) (a : Client.App) (rng : Rng)
        (hasFace hasVoice : bool) :
  Server.deriveMode (JBool hasFace) (JBool hasVoice) = specMode hasFace hasVoice /\
  match Server.payload
          (Server.evaluateHandler E client
             {| Server.transcript := transcript;
                Server.hasFace := JBool hasFace;
                Server.hasVoice := JBool hasVoice;
                Server.audioFeatures := audioFeatures |}) with
  | Server.Evaluated md _ => md = specMode hasFace hasVoice
  | _ => True
  end /\
  Client.mode (fst (fst (Client.evaluateLocally E a hasFace hasVoice rng)))
    = specMode hasFace hasVoice.
Proof.
  assert (Hd : Server.deriveMode (JBool hasFace) (JBool hasVoice)
               = specMode hasFace hasVoice)
    by (destruct hasFace, hasVoice; reflexivity).
  split; [exact Hd | split].
  - match goal with
    | |- match Server.payload ?r with _ => _ end =>
        destruct (Server.payload r) as [e | md ev | fb] eqn:Hp; [exact I | | exact I]
    end.
    destruct (evaluateHandler_evaluated E client _ md ev Hp) as (m & _ & _ & Hb).
    destruct (evaluateBody_inr E m _ _ Hb)
      as (v & t & cl & ncl & co & nco & _ & _ & _ & _ & _ & _ & _
          & clf & cof & an & _ & _ & _ & Hr).
    rewrite Hr in Hp. cbn in Hp. injection Hp as <- _. exact Hd.
  - rewrite evaluateLocally_result. unfold Client.localScores.
    destruct hasFace, hasVoice; cbn [andb negb];
      repeat match goal with
             | |- context [let (_, _) := ?c in _] => destruct c
             end; reflexivity.
Qed.

(* ================================================================== *)
(** ** Concrete runs *)
(* ================================================================== *)


(** With voice only, a model confidence of 30 is returned as 10, not as
    round(30 * 0.5) = 15. *)
Lemma only_voice_confidence_capped :
  Server.evaluateHandler exampleEngine (answering (replyWith (ofZ 8) (ofZ 30)))
                         voiceOnlyRequest
  = {| Server.status := 200;
       Server.payload := Server.Evaluated "Only Voice"
         {| Server.clarity := ofZ 8;
            Server.confidence := ofZ 10;
            Server.clarityFeedback := JStr "Slow down a little.";
            Server.confidenceFeedback :=
              JStr "Enable your camera to receive full confidence scoring and feedback.";
            Server.analysis := JStr "A steady delivery." |} |}
  /\
  Math_round (half (ofZ 30)) = ofZ 15
  /\
  ~ halvedConfidence (ofZ 30)
      (Server.evaluateHandler exampleEngine
         (answering (replyWith (ofZ 8) (ofZ 30))) voiceOnlyRequest).
Proof.
  split; [reflexivity | split; [reflexivity |]].
  intros H. unfold halvedConfidence in H. cbn in H.
  unfold Qeq in H. cbn in H. lia.
Qed.

(** A reply without scores: both fields read [undefined], convert to NaN
    and pass the clamp as NaN. *)
Example evaluate_missing_scores :
  Server.evaluateHandler exampleEngine (answering (JObj [])) helloRequest
  = {| Server.status := 200;
       Server.payload := Server.Evaluated "Human Face + Voice"
         {| Server.clarity := NaN;
            Server.confidence := NaN;
            Server.clarityFeedback := JUndefined;
            Server.confidenceFeedback := JUndefined;
            Server.analysis := JUndefined |} |}.
Proof. reflexivity. Qed.

(** A reply that parses to [null]: reading its properties throws, and
    the answer is a 500. *)
Example evaluate_null_reply :
  Server.status
    (Server.evaluateHandler exampleEngine (answering JNull) helloRequest) = 500.
Proof. reflexivity. Qed.

(** Without a body, [/api/feedback] gives no response of its own. *)
Example postFeedback_without_body :
  fst (Server.postFeedback exampleEngine unconfigured halves None)
  = Server.HandlerRejects ThrownByEngine.
Proof. reflexivity. Qed.

(** No six levels fall into six different bands: there are five. *)
Lemma emotion_bands_not_six :
  ~ exists levels : list JsNumber,
      List.length levels = 6%nat /\ NoDup (map Client.emotionTone levels).
Proof.
  intros (levels & Hlen & Hnd).
  assert (Hincl : incl (map Client.emotionTone levels) bandLabels).
  { intros e _. destruct e; cbn; tauto. }
  pose proof (NoDup_incl_length Hnd Hincl) as Hle.
  rewrite length_map, Hlen in Hle. cbn in Hle. lia.
Qed.

(** Two local evaluations, then stop: the count and the totals are still
    those of the two evaluations. *)
Lemma stopPractice_keeps_statistics :
  Client.evaluationCount (Client.state (Client.stopPractice practised)) = 2 /\
  Client.totalClarity (Client.state (Client.stopPractice practised)) = ofZ 12 /\
  Client.totalConfidence (Client.state (Client.stopPractice practised)) = ofZ 8 /\
  ~ statisticsReset (Client.stopPractice practised).
Proof.
  repeat split; try reflexivity.
  intros [H _]. vm_compute in H. discriminate.
Qed.

(** *** Instances of the theorems *)

Lemma evaluate_validation_witness :
  Server.evaluateHandler exampleEngine unconfigured emptyRequest
    = {| Server.status := 400;
         Server.payload := Server.Failure (Server.ErrText "No speech data provided") |}
  /\ Server.status (Server.evaluateHandler exampleEngine unconfigured helloRequest) <> 400.
Proof.
  split.
  - apply (proj1 (evaluate_validation exampleEngine unconfigured emptyRequest)).
    + left. reflexivity.
    + reflexivity.
  - apply (proj2 (evaluate_validation exampleEngine unconfigured helloRequest)).
    left. exists "Hello". split; [reflexivity | discriminate].
Defined.

Lemma validation_precedes_configuration_witness :
  (Server.status (Server.evaluateHandler exampleEngine (answering JNull) emptyRequest) = 400 /\
   Server.status (Server.evaluateHandler exampleEngine unconfigured emptyRequest) = 400)
  /\ Server.status (Server.evaluateHandler exampleEngine unconfigured helloRequest) = 503.
Proof.
  split.
  - apply (proj1 (validation_precedes_configuration exampleEngine
                    (answering JNull) emptyRequest)); reflexivity.
  - apply (proj2 (validation_precedes_configuration exampleEngine
                    unconfigured helloRequest)).
    split; left; reflexivity.
Defined.

Lemma no_voice_answer_witness :
  ToBoolean (Server.hasVoice silentRequest) = false /\
  Server.evaluateHandler exampleEngine (answering (replyWith (ofZ 9) (ofZ 9)))
                         silentRequest
  = {| Server.status := 200;
       Server.payload := Server.Evaluated "No Voice"
         {| Server.clarity := ofZ 0;
            Server.confidence := ofZ 0;
            Server.clarityFeedback :=
              JStr "Please speak clearly into your microphone to receive clarity feedback.";
            Server.confidenceFeedback :=
              JStr "Start speaking and enable your camera for a complete evaluation.";
            Server.analysis := JStr "A steady delivery." |} |}
  /\
  ("No Voice" = Texts.noVoice /\
   ofZ 0 = ofZ 0 /\ ofZ 0 = ofZ 0 /\
   JStr "Please speak clearly into your microphone to receive clarity feedback."
     = JStr Texts.speakIntoMicrophone /\
   JStr "Start speaking and enable your camera for a complete evaluation."
     = JStr Texts.startSpeakingAndCamera).
Proof.
  split; [reflexivity | split].
  - apply (proj2 (no_voice_answer exampleEngine
                    (answering (replyWith (ofZ 9) (ofZ 9))) silentRequest eq_refl)
             (fun _ => Server.Parsed (replyWith (ofZ 9) (ofZ 9)))
             (replyWith (ofZ 9) (ofZ 9)) (replyProps (ofZ 9) (ofZ 9)));
      reflexivity.
  - exact (proj1 (no_voice_answer exampleEngine
                    (answering (replyWith (ofZ 9) (ofZ 9))) silentRequest eq_refl)
             "No Voice"
             {| Server.clarity := ofZ 0;
                Server.confidence := ofZ 0;
                Server.clarityFeedback :=
                  JStr "Please speak clearly into your microphone to receive clarity feedback.";
                Server.confidenceFeedback :=
                  JStr "Start speaking and enable your camera for a complete evaluation.";
                Server.analysis := JStr "A steady delivery." |}
             eq_refl).
Defined.

Lemma only_voice_confidence_witness :
  (ToBoolean (Server.hasFace voiceOnlyRequest) = false /\
   ToBoolean (Server.hasVoice voiceOnlyRequest) = true) /\
  Server.payload
    (Server.evaluateHandler exampleEngine (answering (replyWith (ofZ 8) (ofZ 7)))
                            voiceOnlyRequest)
  = Server.Evaluated "Only Voice"
      {| Server.clarity := ofZ 8;
         Server.confidence := ofZ 4;
         Server.clarityFeedback := JStr "Slow down a little.";
         Server.confidenceFeedback :=
           JStr "Enable your camera to receive full confidence scoring and feedback.";
         Server.analysis := JStr "A steady delivery." |} /\
  ("Only Voice" = Texts.onlyVoice /\
   ofZ 4 = Math_min (ofZ 10) (Math_max (ofZ 0) (Math_round (half (ofZ 7)))) /\
   (inRange 0 10 (Math_round (half (ofZ 7))) ->
    num_eq (ofZ 4) (Math_round (half (ofZ 7)))) /\
   JStr "Enable your camera to receive full confidence scoring and feedback."
     = JStr Texts.enableCamera).
Proof.
  split; [split; reflexivity | split; [reflexivity |]].
  exact (proj1 (only_voice_confidence exampleEngine
                  (answering (replyWith (ofZ 8) (ofZ 7))) voiceOnlyRequest
                  (fun _ => Server.Parsed (replyWith (ofZ 8) (ofZ 7)))
                  (replyWith (ofZ 8) (ofZ 7)) (ofZ 7)
                  eq_refl eq_refl eq_refl eq_refl eq_refl)
           "Only Voice"
           {| Server.clarity := ofZ 8;
              Server.confidence := ofZ 4;
              Server.clarityFeedback := JStr "Slow down a little.";
              Server.confidenceFeedback :=
                JStr "Enable your camera to receive full confidence scoring and feedback.";
              Server.analysis := JStr "A steady delivery." |}
           eq_refl).
Defined.


Lemma halves_wellFormed : wellFormed halves.
Proof. intros n. split; discriminate || reflexivity. Qed.

Lemma local_no_voice_ranges_witness :
  wellFormed halves /\
  Forall2 (fun call r =>
             snd call = false ->
             Client.mode r = "No Voice" /\
             integerWithin 5 7 (Client.clarity r) /\
             integerWithin 3 5 (Client.confidence r))
          [(false, false); (true, true); (true, false)]
          (Client.evaluateLocallyAll exampleEngine
             [(false, false); (true, true); (true, false)] recording halves).
Proof.
  split; [exact halves_wellFormed |].
  apply (local_no_voice_ranges exampleEngine
           [(false, false); (true, true); (true, false)] recording halves).
  exact halves_wellFormed.
Defined.

(* ================================================================== *)
(** ** Further properties of the server *)
(* ================================================================== *)

(** Decide the comparisons of property names that are literals. *)
Ltac literal_names :=
  repeat match goal with
         | |- context [String.eqb ?a ?b] =>
             let r := eval vm_compute in (String.eqb a b) in
             change (String.eqb a b) with r
         end;
  cbv iota.

Section MoreServerProperties.

Import Server Texts Endpoints.

Variable E : Engine.

(** X1. The answer of [/api/evaluate] has one of four statuses, and
    [success] is true, and the [error] field absent, exactly when the
    status is 200. *)
Theorem evaluate_outcomes (client : AiClient) (req : EvaluateRequest) :
  (status (evaluateHandler E client req) = 400 \/
   status (evaluateHandler E client req) = 503 \/
   status (evaluateHandler E client req) = 500 \/
   status (evaluateHandler E client req) = 200) /\
  (success (evaluateHandler E client req) = true <->
   status (evaluateHandler E client req) = 200) /\
  (errorOf (evaluateHandler E client req) = None <->
   status (evaluateHandler E client req) = 200).
Proof.
  unfold evaluateHandler.
  destruct (negb (ToBoolean (transcript req)) && negb (ToBoolean (hasVoice req))).
  { cbn. repeat split; auto; discriminate. }
  destruct (genAI client);
    [| cbn; repeat split; auto; discriminate].
  destruct (model client) as [m|];
    [| cbn; repeat split; auto; discriminate].
  destruct (evaluateBody E m req) as [e|r] eqn:Hb.
  { cbn. repeat split; auto; discriminate. }
  destruct (evaluateBody_inr E m req r Hb)
    as (v & t & cl & ncl & co & nco & _ & _ & _ & _ & _ & _ & _
        & clf & cof & an & _ & _ & _ & Hr).
  rewrite Hr. cbn. repeat split; auto.
Qed.

(** The handler past both guards, when [evaluateBody] throws. *)
Lemma evaluateHandler_throws (client : AiClient) (req : EvaluateRequest)
      (m : Prompt -> AiReply) (e : Thrown) :
  passesValidation req -> configured client m ->
  evaluateBody E m req = inl e ->
  evaluateHandler E client req =
    {| status := 500; payload := Failure (messageOr e "Failed to evaluate speech") |}.
Proof.
  intros Hvalid [Hg Hm] Hb. unfold evaluateHandler.
  replace (negb (ToBoolean (transcript req)) && negb (ToBoolean (hasVoice req)))
    with false by (rewrite <- negb_orb, Hvalid; reflexivity).
  rewrite Hg, Hm, Hb. reflexivity.
Qed.

(** X2. For a valid request and a configured client: a transcript that
    cannot be written into the prompt gives a 500 without the model being
    asked; a call that rejects gives a 500 with the message of the error,
    or "Failed to evaluate speech" when that message is empty; a reply
    that cannot be parsed gives a 500 with "Invalid response format from
    AI". *)
Theorem evaluate_upstream_failure (client : AiClient) (req : EvaluateRequest)
        (m : Prompt -> AiReply) :
  passesValidation req -> configured client m ->
  (toPrimitiveThrows (shownTranscript req) = true ->
   forall client' m', configured client' m' ->
     evaluateHandler E client' req =
       {| status := 500; payload := Failure ErrEngineText |}) /\
  (toPrimitiveThrows (shownTranscript req) = false ->
   (forall message,
       m (evaluatePrompt req) = Rejects (ThrownError message) ->
       evaluateHandler E client req =
         {| status := 500;
            payload := Failure (ErrText (if String.eqb message ""
                                         then "Failed to evaluate speech"
                                         else message)) |}) /\
   (m (evaluatePrompt req) = Unparsable ->
    evaluateHandler E client req =
      {| status := 500;
         payload := Failure (ErrText "Invalid response format from AI") |})).
Proof.
  intros Hvalid Hc. split.
  - intros Hi client' m' Hc'.
    rewrite (evaluateHandler_throws client' req m' ThrownByEngine Hvalid Hc');
      [reflexivity |].
    unfold evaluateBody, interpolate. rewrite Hi. reflexivity.
  - intros Hi. split.
    + intros message Hm.
      rewrite (evaluateHandler_throws client req m (ThrownError message) Hvalid Hc).
      * cbn. destruct (String.eqb message ""); reflexivity.
      * unfold evaluateBody, interpolate. rewrite Hi, Hm. reflexivity.
    + intros Hm.
      rewrite (evaluateHandler_throws client req m
                 (ThrownError "Invalid response format from AI") Hvalid Hc).
      * reflexivity.
      * unfold evaluateBody, interpolate. rewrite Hi, Hm. reflexivity.
Qed.

(** X3. A reply that parses to [null] gives a 500 in every mode.  A reply
    that parses to a string, a number or a boolean gives a 500 in the
    modes "Only Voice" and "No Voice", where the handler assigns to it;
    with face and voice it is answered 200, both scores NaN and the three
    texts undefined. *)
Theorem evaluate_reply_not_an_object (client : AiClient) (req : EvaluateRequest)
        (m : Prompt -> AiReply) (v : JsValue) :
  passesValidation req -> configured client m ->
  toPrimitiveThrows (shownTranscript req) = false ->
  m (evaluatePrompt req) = Parsed v ->
  (asTarget v = TNullish ->
   evaluateHandler E client req =
     {| status := 500; payload := Failure ErrEngineText |}) /\
  (asTarget v = TPrimitive ->
   evaluateHandler E client req =
     if ToBoolean (hasFace req) && ToBoolean (hasVoice req) then
       {| status := 200;
          payload := Evaluated faceAndVoice
            {| clarity := NaN; confidence := NaN;
               clarityFeedback := JUndefined;
               confidenceFeedback := JUndefined;
               analysis := JUndefined |} |}
     else {| status := 500; payload := Failure ErrEngineText |}).
Proof.
  intros Hvalid Hc Hi Hm. split; intros Ht.
  - rewrite (evaluateHandler_throws client req m ThrownByEngine Hvalid Hc);
      [reflexivity |].
    unfold evaluateBody, interpolate. rewrite Hi, Hm, Ht, deriveMode_cases.
    destruct (ToBoolean (hasVoice req)); [destruct (ToBoolean (hasFace req)) |];
      reflexivity.
  - destruct (ToBoolean (hasVoice req)) eqn:Hv;
      [destruct (ToBoolean (hasFace req)) eqn:Hf |].
    + cbn [andb]. destruct Hc as [Hg Hmod].
      apply (evaluateHandler_body E client req m); auto.
      unfold evaluateBody, interpolate.
      rewrite Hi, Hm, Ht, deriveMode_cases, Hv, Hf. reflexivity.
    + cbn [andb].
      rewrite (evaluateHandler_throws client req m ThrownByEngine Hvalid Hc);
        [reflexivity |].
      unfold evaluateBody, interpolate.
      rewrite Hi, Hm, Ht, deriveMode_cases, Hv, Hf. reflexivity.
    + rewrite andb_false_r.
      rewrite (evaluateHandler_throws client req m ThrownByEngine Hvalid Hc);
        [reflexivity |].
      unfold evaluateBody, interpolate.
      rewrite Hi, Hm, Ht, deriveMode_cases, Hv. reflexivity.
Qed.

Lemma Qle_bool_inject (a b : Z) :
  Qle_bool (inject_Z a) (inject_Z b) = (a <=? b).
Proof. unfold Qle_bool. cbn. rewrite !Z.mul_1_r. reflexivity. Qed.

(** The clamp of an integer, in integers. *)
Lemma clamp_ofZ (z : Z) :
  Math_min (ofZ 10) (Math_max (ofZ 0) (ofZ z)) = ofZ (Z.min 10 (Z.max 0 z)).
Proof.
  unfold Math_max, Math_min, ofZ. rewrite Qle_bool_inject.
  destruct (Z.leb_spec 0 z).
  - rewrite Qle_bool_inject.
    destruct (Z.leb_spec 10 z); do 2 f_equal; lia.
  - rewrite Qle_bool_inject.
    replace (10 <=? 0) with false by reflexivity.
    do 2 f_equal. lia.
Qed.

(** The confidence of a successful answer in mode "Only Voice". *)
Lemma onlyVoice_confidence_value (client : AiClient) (req : EvaluateRequest)
      (m : Prompt -> AiReply) (v c : JsValue) (n : JsNumber)
      (md : string) (ev : Evaluation) :
  ToBoolean (hasFace req) = false ->
  ToBoolean (hasVoice req) = true ->
  model client = Some m ->
  m (evaluatePrompt req) = Parsed v ->
  getProp (asTarget v) "confidence" = inr c ->
  ToNumber E c = inr n ->
  payload (evaluateHandler E client req) = Evaluated md ev ->
  confidence ev = Math_min (ofZ 10) (Math_max (ofZ 0) (Math_round (half n))).
Proof.
  intros Hf Hv Hmod Hm Hc Hn Hp.
  destruct (evaluateHandler_evaluated E client req md ev Hp) as (m' & _ & Hmod' & Hb).
  assert (m' = m) by congruence. subst m'.
  destruct (evaluateBody_inr E m req _ Hb)
    as (v' & t & cl & ncl & co & nco & _ & Hm' & Ht & _ & _ & Hco & Hnco
        & clf & cof & an & _ & _ & _ & Hr).
  assert (v' = v) by congruence. subst v'.
  rewrite deriveMode_cases, Hv, Hf in Ht.
  destruct (adjust_onlyVoice E _ _ Ht) as (props & c' & n' & Hobj & Hc' & Hn' & Ht').
  assert (c' = c) by congruence. subst c'.
  assert (n' = n) by congruence. subst n'.
  subst t. rewrite getProp_field, field_cons in Hco. revert Hco. literal_names.
  rewrite field_cons. literal_names. intros Hco.
  injection Hco as <-. cbn in Hnco. injection Hnco as <-.
  rewrite Hr in Hp. cbn in Hp. injection Hp as _ <-. reflexivity.
Qed.

(** X4. In mode "Only Voice" the confidence of a successful answer is an
    integer within 0..10 whenever the model's confidence is a number, be
    it fractional, negative, huge or infinite; when the model's
    confidence lies within 0..10, the answer's lies within 0..5. *)
Theorem only_voice_confidence_bounds (client : AiClient) (req : EvaluateRequest)
        (m : Prompt -> AiReply) (v : JsValue) (n : JsNumber)
        (md : string) (ev : Evaluation) :
  ToBoolean (hasFace req) = false ->
  ToBoolean (hasVoice req) = true ->
  model client = Some m ->
  m (evaluatePrompt req) = Parsed v ->
  getProp (asTarget v) "confidence" = inr (JNum n) ->
  n <> NaN ->
  payload (evaluateHandler E client req) = Evaluated md ev ->
  integerWithin 0 10 (confidence ev) /\
  (inRange 0 10 n -> integerWithin 0 5 (confidence ev)).
Proof.
  intros Hf Hv Hmod Hm Hc Hn Hp.
  rewrite (onlyVoice_confidence_value client req m v (JNum n) n md ev
             Hf Hv Hmod Hm Hc eq_refl Hp).
  destruct n as [| | |q]; try congruence.
  - split; [exists 10; split; [reflexivity | lia] | intros []].
  - split; [exists 0; split; [reflexivity | lia] | intros []].
  - change (Math_round (half (Fin q)))
      with (ofZ (Qfloor (q * (1 # 2) + (1 # 2)))).
    set (z := Qfloor (q * (1 # 2) + (1 # 2))).
    rewrite clamp_ofZ. split.
    + exists (Z.min 10 (Z.max 0 z)). split; [reflexivity | lia].
    + intros [Hlo Hhi].
      change (0 <= q)%Q in Hlo. change (q <= 10)%Q in Hhi.
      assert (Hz0 : 0 <= z).
      { apply Z.le_trans with (Qfloor (1 # 2)); [discriminate |].
        apply Qfloor_resp_le. lra. }
      assert (Hz5 : z <= 5).
      { apply Z.le_trans with (Qfloor (11 # 2)); [| discriminate].
        apply Qfloor_resp_le. lra. }
      exists (Z.min 10 (Z.max 0 z)). split; [reflexivity | lia].
Qed.

(** X5. With face and voice, numeric scores within 0..10 and the three
    texts of the model's object are returned as the model gave them. *)
Theorem face_and_voice_verbatim (client : AiClient) (req : EvaluateRequest)
        (m : Prompt -> AiReply) (v : JsValue) (props : list (string * JsValue))
        (a b : JsNumber) :
  ToBoolean (hasFace req) = true ->
  ToBoolean (hasVoice req) = true ->
  configured client m ->
  toPrimitiveThrows (shownTranscript req) = false ->
  m (evaluatePrompt req) = Parsed v ->
  asTarget v = TObject props ->
  field "clarity" props = JNum a ->
  field "confidence" props = JNum b ->
  inRange 0 10 a -> inRange 0 10 b ->
  exists ev,
    evaluateHandler E client req =
      {| status := 200; payload := Evaluated faceAndVoice ev |} /\
    num_eq (clarity ev) a /\ num_eq (confidence ev) b /\
    clarityFeedback ev = field "clarityFeedback" props /\
    confidenceFeedback ev = field "confidenceFeedback" props /\
    analysis ev = field "analysis" props.
Proof.
  intros Hf Hv [Hg Hmod] Hi Hm Hobj Ha Hb Hra Hrb.
  eexists. split.
  - apply (evaluateHandler_body E client req m); auto.
    + rewrite Hv. apply orb_true_r.
    + apply (evaluateBody_faceAndVoice E m req v props a b); auto.
      * rewrite Ha. reflexivity.
      * rewrite Hb. reflexivity.
  - cbn [clarity confidence clarityFeedback confidenceFeedback analysis].
    split; [apply clamp_id; exact Hra |].
    split; [apply clamp_id; exact Hrb |]. auto.
Qed.

(** *** The fallback tips *)

Lemma sixfoldInRange_next (rng : Rng) :
  sixfoldInRange E rng -> sixfoldInRange E (snd (Math_random rng)).
Proof. intros H n. apply (H (S n)). Qed.

(** A draw in range picks one of six tips. *)
Lemma pickTip_six (tips : list string) (rng : Rng) :
  List.length tips = 6%nat ->
  sixfoldInRange E rng ->
  exists t, fst (pickTip E tips rng) = JStr t /\ In t tips.
Proof.
  intros Hlen H. destruct (H O) as [H0 H6].
  unfold pickTip, Math_random. cbn [fst]. rewrite Hlen.
  change (inject_Z (Z.of_nat 6)) with 6%Q.
  set (x := fl E (rng O * 6)) in *.
  assert (Hlo : 0 <= Qfloor x).
  { apply Z.le_trans with (Qfloor 0); [discriminate |].
    apply Qfloor_resp_le. exact H0. }
  assert (Hhi : Qfloor x < 6).
  { rewrite Zlt_Qlt. apply Qle_lt_trans with x; [apply Qfloor_le | exact H6]. }
  replace (Qfloor x <? 0) with false by (symmetry; apply Z.ltb_ge; exact Hlo).
  destruct (nth_error tips (Z.to_nat (Qfloor x))) as [t|] eqn:Hn.
  - exists t. split; [reflexivity |]. apply nth_error_In with (1 := Hn).
  - apply nth_error_None in Hn. lia.
Qed.

(** X6. When every draw gives an index within the six tips, the fallback
    feedback is a pair of texts: the two fixed sentences for mode "No
    Voice"; otherwise one of the six clarity tips, with the camera
    sentence for mode "Only Voice" and one of the six confidence tips for
    any other mode, a missing or malformed one included. *)
Theorem fallback_tips (rng : Rng) (clarity confidence mode : JsValue) :
  sixfoldInRange E rng ->
  exists c k,
    fst (getFallbackFeedback E rng clarity confidence mode)
      = JObj [("clarityTip", JStr c); ("confidenceTip", JStr k)] /\
    if strictEqStr mode noVoice then
      c = speakIntoMicrophone /\ k = startSpeakingAndCamera
    else
      In c clarityTips /\
      if strictEqStr mode onlyVoice then k = enableCamera
      else In k confidenceTips.
Proof.
  intros H. unfold getFallbackFeedback.
  destruct (pickTip_six confidenceTips rng eq_refl H) as (k & Hk & Hink).
  pose proof (sixfoldInRange_next rng H) as H1.
  rewrite <- (pickTip_rng E confidenceTips) in H1.
  destruct (pickTip E confidenceTips rng) as [drawn rng1].
  cbn [fst snd] in Hk, H1. subst drawn.
  destruct (pickTip_six clarityTips rng1 eq_refl H1) as (c & Hc & Hinc).
  destruct (pickTip E clarityTips rng1) as [tip rng2]. cbn [fst] in Hc. subst tip.
  destruct (strictEqStr mode onlyVoice) eqn:Ho.
  - assert (Hn : strictEqStr mode noVoice = false).
    { destruct mode; cbn in Ho; try discriminate.
      apply String.eqb_eq in Ho. subst. reflexivity. }
    rewrite Hn. exists c, enableCamera. cbn [fst]. auto.
  - destruct (strictEqStr mode noVoice).
    + exists speakIntoMicrophone, startSpeakingAndCamera. cbn [fst]. auto.
    + exists c, k. cbn [fst]. auto.
Qed.

(** *** Start-up and the other endpoints *)

(** X7. [/api/analyze-audio] answers 400 to a request without a file
    whatever the client, 503 to a file when the client is not configured,
    and otherwise 200 with the text of the model exactly as it came, or
    500 when the call rejects; [success] would be true only for 200. *)
Theorem analyze_audio_outcomes (client : AiClient) (ask : InlineData -> TextReply)
        (file : option UploadedFile) :
  (audio_status (analyzeAudioHandler client ask file) = 400 <-> file = None) /\
  (audio_status (analyzeAudioHandler client ask file) = 503 <->
   file <> None /\ (genAI client = false \/ model client = None)) /\
  (forall t, audio_payload (analyzeAudioHandler client ask file) = Analysis t <->
     audio_status (analyzeAudioHandler client ask file) = 200 /\
     exists f, file = Some f /\
       ask {| data := buffer f;
              mimeType := if String.eqb (mimetype f) "" then "audio/webm"
                          else mimetype f |} = Text t).
Proof.
  unfold analyzeAudioHandler.
  destruct file as [f|];
    [destruct (genAI client);
     [destruct (model client) as [m|];
      [destruct (ask {| data := buffer f;
                        mimeType := if String.eqb (mimetype f) "" then "audio/webm"
                                    else mimetype f |}) as [e|t0] eqn:Hask | ] | ] | ];
    cbn [audio_status audio_payload];
    (split; [| split; [| intros t]]); split;
    try discriminate; try congruence;
    try (intros [H _]; discriminate || congruence);
    try (intros [_ [H | H]]; discriminate);
    try (intros _; split; [discriminate | auto]).
  - intros H. injection H as <-. split; [reflexivity |].
    exists f. auto.
  - intros [_ (f' & Hf' & Hask')]. injection Hf' as <-.
    rewrite Hask in Hask'. congruence.
Qed.

(** X8. Started without a key, the server is not configured, whatever
    the SDK would have done: [/health] and [/api/status] say so, every
    valid evaluation request gets 503, every feedback request the
    fallback, every uploaded file 503. *)
Theorem missing_key_disables_ai (GEMINI_API_KEY : option string) (sdk : SdkInit)
        (now : string) (req : EvaluateRequest) (rng : Rng) (fb : FeedbackRequest)
        (ask : InlineData -> TextReply) (f : UploadedFile) :
  keyPresent GEMINI_API_KEY = false ->
  geminiConfigured (health GEMINI_API_KEY now) = false /\
  geminiAvailable (apiStatus (initialize GEMINI_API_KEY sdk)) = false /\
  (passesValidation req ->
   status (evaluateHandler E (initialize GEMINI_API_KEY sdk) req) = 503) /\
  feedbackHandler E (initialize GEMINI_API_KEY sdk) rng fb = fallbackResponse E rng fb /\
  audio_status (analyzeAudioHandler (initialize GEMINI_API_KEY sdk) ask (Some f)) = 503.
Proof.
  intros Hk. unfold initialize, health. rewrite Hk.
  repeat split. intros Hvalid. unfold evaluateHandler.
  replace (negb (ToBoolean (transcript req)) && negb (ToBoolean (hasVoice req)))
    with false by (rewrite <- negb_orb, Hvalid; reflexivity).
  reflexivity.
Qed.

Lemma configured_not_503 (client : AiClient) (req : EvaluateRequest)
      (m : Prompt -> AiReply) :
  configured client m ->
  status (evaluateHandler E client req) <> 503.
Proof.
  intros [Hg Hm]. unfold evaluateHandler.
  destruct (negb (ToBoolean (transcript req)) && negb (ToBoolean (hasVoice req)));
    [discriminate |].
  rewrite Hg, Hm.
  destruct (evaluateBody E m req) as [e|r] eqn:Hb; [discriminate |].
  destruct (evaluateBody_inr E m req r Hb)
    as (v & t & cl & ncl & co & nco & _ & _ & _ & _ & _ & _ & _
        & clf & cof & an & _ & _ & _ & Hr).
  rewrite Hr. discriminate.
Qed.

(** X9. With a key, a valid evaluation request is answered 503 exactly
    when one of the two SDK calls of start-up threw; [/api/status] still
    reports the AI as available when only the second call threw. *)
Theorem startup_availability (GEMINI_API_KEY : option string) (sdk : SdkInit)
        (req : EvaluateRequest) :
  keyPresent GEMINI_API_KEY = true ->
  passesValidation req ->
  (status (evaluateHandler E (initialize GEMINI_API_KEY sdk) req) = 503 <->
   sdk = ConstructorThrows \/ sdk = GetModelThrows) /\
  (geminiAvailable (apiStatus (initialize GEMINI_API_KEY sdk)) = false <->
   sdk = ConstructorThrows).
Proof.
  intros Hk Hvalid. unfold initialize. rewrite Hk.
  destruct sdk as [m | |]; cbn.
  - split; [| split; [discriminate | intros H; discriminate]].
    split; [| intros [H | H]; discriminate].
    intros H. exfalso. revert H. apply (configured_not_503 _ req m).
    split; reflexivity.
  - split; [| tauto].
    split; [tauto |]. intros _.
    unfold evaluateHandler.
    replace (negb (ToBoolean (transcript req)) && negb (ToBoolean (hasVoice req)))
      with false by (rewrite <- negb_orb, Hvalid; reflexivity).
    reflexivity.
  - split; [| split; [discriminate | intros H; discriminate]].
    split; [tauto |]. intros _.
    unfold evaluateHandler.
    replace (negb (ToBoolean (transcript req)) && negb (ToBoolean (hasVoice req)))
      with false by (rewrite <- negb_orb, Hvalid; reflexivity).
    reflexivity.
Qed.

End MoreServerProperties.

(* ================================================================== *)
(** ** Further properties of the browser *)
(* ================================================================== *)

Section MoreClientProperties.

Import Client Texts Capture.

Variable E : Engine.

(** *** Rounding between two integers *)

Lemma fl_between (a b : Z) (x : Q) :
  roundsToNearest E ->
  Z.abs a <= 2 ^ 53 -> Z.abs b <= 2 ^ 53 ->
  (inject_Z a <= x)%Q -> (x <= inject_Z b)%Q ->
  (inject_Z a <= fl E x)%Q /\ (fl E x <= inject_Z b)%Q.
Proof.
  intros [Hmono Hexact] Ha Hb Hlo Hhi. split.
  - rewrite <- (Hexact a Ha). apply Hmono, Hlo.
  - rewrite <- (Hexact b Hb). apply Hmono, Hhi.
Qed.

Lemma round_between (a b : Z) (x : Q) :
  (inject_Z a <= x)%Q -> (x <= inject_Z b)%Q ->
  a <= Qfloor (x + (1 # 2)) <= b.
Proof.
  intros Hlo Hhi. split.
  - rewrite <- (Qfloor_Z a). apply Qfloor_resp_le. lra.
  - apply Z.lt_succ_r. rewrite Zlt_Qlt.
    apply Qle_lt_trans with (x + (1 # 2))%Q; [apply Qfloor_le |].
    unfold Z.succ. rewrite inject_Z_plus.
    change (inject_Z 1) with 1%Q. lra.
Qed.

Lemma small_abs (z : Z) : 0 <= z <= 1000 -> Z.abs z <= 2 ^ 53.
Proof.
  intros H. rewrite Z.abs_eq by lia.
  apply Z.le_trans with 1000; [lia | discriminate].
Qed.

Lemma Math_max_ofZ (a b : Z) : Math_max (ofZ a) (ofZ b) = ofZ (Z.max a b).
Proof.
  unfold Math_max, ofZ. rewrite Qle_bool_inject.
  destruct (Z.leb_spec a b); do 2 f_equal; lia.
Qed.

Lemma Math_min_ofZ (a b : Z) : Math_min (ofZ a) (ofZ b) = ofZ (Z.min a b).
Proof.
  unfold Math_min, ofZ. rewrite Qle_bool_inject.
  destruct (Z.leb_spec a b); do 2 f_equal; lia.
Qed.

(** *** The level of one tick *)

Lemma byteValue_range (b : Byte.byte) : 0 <= byteValue b <= 255.
Proof.
  unfold byteValue. pose proof (Byte.to_N_bounded b). lia.
Qed.

Lemma sum_range (frequencyData : list Byte.byte) (acc : Z) :
  acc <= fold_left (fun sum b => sum + byteValue b) frequencyData acc
      <= acc + 255 * Z.of_nat (List.length frequencyData).
Proof.
  revert acc. induction frequencyData as [| b rest IH]; intros acc.
  - cbn. lia.
  - cbn [fold_left List.length]. specialize (IH (acc + byteValue b)).
    pose proof (byteValue_range b). lia.
Qed.

Lemma max_range (frequencyData : list Byte.byte) (acc : Z) :
  0 <= acc <= 255 ->
  0 <= fold_left (fun maxValue b => Z.max maxValue (byteValue b)) frequencyData acc
    <= 255.
Proof.
  revert acc. induction frequencyData as [| b rest IH]; intros acc Hacc.
  - exact Hacc.
  - cbn [fold_left]. apply IH. pose proof (byteValue_range b). lia.
Qed.

Lemma toDb_range (q : Q) :
  roundsToNearest E ->
  (0 <= q)%Q -> (q <= 255)%Q ->
  integerWithin 0 60 (toDb E (Fin q)).
Proof.
  intros HE H0 H255. unfold toDb, Math_round.
  eexists. split; [reflexivity |].
  assert (H1 : (inject_Z 0 <= fl E (q / 255))%Q /\ (fl E (q / 255) <= inject_Z 1)%Q).
  { apply fl_between; auto using small_abs; try (apply small_abs; lia).
    - change (inject_Z 0) with 0%Q. apply Qle_shift_div_l; lra.
    - change (inject_Z 1) with 1%Q. apply Qle_shift_div_r; lra. }
  destruct H1 as [Ha Hb].
  change (inject_Z 0) with 0%Q in Ha. change (inject_Z 1) with 1%Q in Hb.
  assert (H2 : (inject_Z 0 <= fl E (fl E (q / 255) * 60))%Q /\
               (fl E (fl E (q / 255) * 60) <= inject_Z 60)%Q).
  { apply fl_between; auto; try (apply small_abs; lia).
    - change (inject_Z 0) with 0%Q. lra.
    - change (inject_Z 60) with 60%Q. lra. }
  destruct H2 as [Hc Hd].
  apply round_between; assumption.
Qed.

Lemma averageOf_range (b : Byte.byte) (rest : list Byte.byte) :
  roundsToNearest E ->
  exists q, averageOf E (b :: rest) = Fin q /\ (0 <= q)%Q /\ (q <= 255)%Q.
Proof.
  intros HE. unfold averageOf. eexists. split; [reflexivity |].
  set (n := Z.of_nat (List.length (b :: rest))).
  assert (Hn : 0 < n) by (unfold n; cbn [List.length]; lia).
  pose proof (sum_range (b :: rest) 0) as Hs. fold (sumOf (b :: rest)) in Hs.
  fold n in Hs.
  assert (HnQ : (0 < inject_Z n)%Q) by (rewrite (Zlt_Qlt 0 n) in Hn; exact Hn).
  assert (H : (inject_Z 0 <= fl E (inject_Z (sumOf (b :: rest)) / inject_Z n))%Q /\
              (fl E (inject_Z (sumOf (b :: rest)) / inject_Z n) <= inject_Z 255)%Q).
  { apply fl_between; auto; try (apply small_abs; lia).
    - apply Qle_shift_div_l; [exact HnQ |].
      rewrite <- inject_Z_mult, <- Zle_Qle. lia.
    - apply Qle_shift_div_r; [exact HnQ |].
      rewrite <- inject_Z_mult, <- Zle_Qle. lia. }
  exact H.
Qed.

Lemma pointSeven_range : (0 <= pointSeven)%Q /\ (pointSeven <= 7 # 10)%Q.
Proof. split; discriminate. Qed.

Lemma seventyPercent_range (z : Z) :
  roundsToNearest E ->
  0 <= z <= 60 ->
  integerWithin 0 42 (seventyPercent E (ofZ z)).
Proof.
  intros HE Hz. unfold seventyPercent, ofZ, Math_round.
  eexists. split; [reflexivity |].
  destruct pointSeven_range as [Hp0 Hp7].
  assert (Hz0 : (0 <= inject_Z z)%Q) by (rewrite (Zle_Qle 0 z) in Hz; tauto).
  assert (Hz60 : (inject_Z z <= 60)%Q)
    by (change 60%Q with (inject_Z 60); rewrite <- Zle_Qle; lia).
  assert (H : (inject_Z 0 <= fl E (inject_Z z * pointSeven))%Q /\
              (fl E (inject_Z z * pointSeven) <= inject_Z 42)%Q).
  { apply fl_between; auto; try (apply small_abs; lia).
    - change (inject_Z 0) with 0%Q. nra.
    - change (inject_Z 42) with 42%Q. nra. }
  destruct H. apply round_between; assumption.
Qed.

(** X10. With rounding to nearest, the level of a tick over a non-empty
    buffer of bins is an integer within 0..60; over an empty buffer it is
    NaN, and the tick then detects no voice and names the emotion
    Neutral. *)
Theorem finalDb_range (frequencyData : list Byte.byte) (a : App) :
  roundsToNearest E ->
  (frequencyData <> [] -> integerWithin 0 60 (finalDbOf E frequencyData)) /\
  (frequencyData = [] ->
   finalDbOf E frequencyData = NaN /\
   (isRecording (state a) = true ->
    voiceDetected (state (draw E frequencyData a)) = false /\
    currentEmotion (draw E frequencyData a) = Some Neutral)).
Proof.
  intros HE. split.
  - destruct frequencyData as [| b rest]; [congruence | intros _].
    unfold finalDbOf.
    destruct (averageOf_range b rest HE) as (q & Hq & Hq0 & Hq255).
    rewrite Hq.
    destruct (toDb_range q HE Hq0 Hq255) as (d & Hd & Hdr). rewrite Hd.
    pose proof (max_range (b :: rest) 0 ltac:(lia)) as Hm.
    fold (maxOf (b :: rest)) in Hm.
    assert (Hm0 : (0 <= inject_Z (maxOf (b :: rest)))%Q)
      by (rewrite (Zle_Qle 0) in Hm; tauto).
    assert (Hm255 : (inject_Z (maxOf (b :: rest)) <= 255)%Q)
      by (change 255%Q with (inject_Z 255); rewrite <- Zle_Qle; lia).
    destruct (toDb_range _ HE Hm0 Hm255) as (k & Hk & Hkr).
    change (ofZ (maxOf (b :: rest))) with (Fin (inject_Z (maxOf (b :: rest)))).
    rewrite Hk.
    destruct (seventyPercent_range k HE Hkr) as (w & Hw & Hwr). rewrite Hw.
    rewrite Math_max_ofZ. exists (Z.max d w). split; [reflexivity | lia].
  - intros ->. split; [reflexivity |].
    intros Hrec. unfold draw, drawTick. rewrite Hrec. split; reflexivity.
Qed.

(** *** Ticks and the end of a session *)

Lemma emotionTone_neutral (finalDb : JsNumber) :
  emotionTone finalDb = Neutral <-> gt finalDb (ofZ 3) = false.
Proof.
  unfold emotionTone. split.
  - destruct (gt finalDb (ofZ 40)); [discriminate |].
    destruct (gt finalDb (ofZ 25)); [discriminate |].
    destruct (gt finalDb (ofZ 10)); [discriminate |].
    destruct (gt finalDb (ofZ 3)); [discriminate | reflexivity].
  - intros H3.
    destruct (gt finalDb (ofZ 40)) eqn:H40;
      [rewrite (gt_mono finalDb 40 3) in H3 by (assumption || lia); discriminate |].
    destruct (gt finalDb (ofZ 25)) eqn:H25;
      [rewrite (gt_mono finalDb 25 3) in H3 by (assumption || lia); discriminate |].
    destruct (gt finalDb (ofZ 10)) eqn:H10;
      [rewrite (gt_mono finalDb 10 3) in H3 by (assumption || lia); discriminate |].
    rewrite H3. reflexivity.
Qed.

(** X11. After a tick of the audio loop on a recording instance, voice is
    detected exactly when the emotion is not Neutral: the audio status,
    which names the emotion only when voice is detected, never reads
    Neutral. *)
Theorem draw_voice_and_emotion (finalDb : JsNumber) (a : App) :
  isRecording (state a) = true ->
  currentEmotion (drawTick finalDb a) = Some (emotionTone finalDb) /\
  (voiceDetected (state (drawTick finalDb a)) = true <->
   emotionTone finalDb <> Neutral).
Proof.
  intros Hrec. unfold drawTick. rewrite Hrec. cbn. split; [reflexivity |].
  rewrite emotionTone_neutral. destruct (gt finalDb (ofZ 3)); split; congruence.
Qed.

(** X12. Stopping twice is stopping once; after a stop no stream, audio
    context or timer is held, the recorder, if there is one, is inactive,
    and only the start button is enabled. *)
Theorem stopPractice_idempotent (a : App) :
  stopPractice (stopPractice a) = stopPractice a /\
  stream (stopPractice a) = false /\
  audioContext (stopPractice a) = false /\
  faceDetectionInterval (stopPractice a) = false /\
  sessionInterval (stopPractice a) = false /\
  mediaRecorder (stopPractice a) <> Some RecRecording /\
  mediaRecorder (stopPractice a) <> Some RecPaused /\
  startBtnDisabled (page (stopPractice a)) = false /\
  stopBtnDisabled (page (stopPractice a)) = true /\
  evaluateBtnDisabled (page (stopPractice a)) = true.
Proof.
  destruct a as [st ac fi si mr ce s p]. destruct mr as [r|];
    cbn; repeat split; discriminate.
Qed.

(** X13. Once the session is stopped, a tick of the audio loop and a
    tick of the face timer change nothing, whatever they measure. *)
Theorem ticks_after_stop (finalDb : JsNumber) (frequencyData : list Byte.byte)
        (d : Detection) (a : App) :
  drawTick finalDb (stopPractice a) = stopPractice a /\
  draw E frequencyData (stopPractice a) = stopPractice a /\
  detectFace d (stopPractice a) = stopPractice a.
Proof. repeat split. Qed.

(** X14. A detection that was under way when the session stopped is not
    discarded: when it settles with a face, the stopped instance has
    [faceDetected] true again, the face card active and the canvas drawn
    on, while [isRecording] stays false; when it settles without a face
    or throws, the stopped instance is as [stopPractice] left it. *)
Theorem detection_settling_after_stop (a : App) :
  faceDetected (state (detectFaceSettled FaceFound (stopPractice a))) = true /\
  faceCardActive (page (detectFaceSettled FaceFound (stopPractice a))) = true /\
  faceCanvasClear (page (detectFaceSettled FaceFound (stopPractice a))) = false /\
  isRecording (state (detectFaceSettled FaceFound (stopPractice a))) = false /\
  detectFaceSettled NoFace (stopPractice a) = stopPractice a /\
  detectFaceSettled DetectorThrows (stopPractice a) = stopPractice a.
Proof. repeat split. Qed.

(** *** The call to the backend *)

Lemma spokenTranscript_text (transcriptBuffer : list string) :
  exists s, spokenTranscript transcriptBuffer = JStr s /\ s <> "".
Proof.
  unfold spokenTranscript, Server.orElse. cbn [ToBoolean].
  destruct (String.eqb (String.concat " " transcriptBuffer) "") eqn:Hs; cbn.
  - exists "User is speaking...". split; [reflexivity | discriminate].
  - exists (String.concat " " transcriptBuffer). split; [reflexivity |].
    apply String.eqb_neq. exact Hs.
Qed.

(** X15. The body the browser sends to [/api/evaluate] never meets the
    400 of the missing-input guard, whatever was recorded and detected:
    its transcript is a non-empty text, the recorded one or the
    placeholder, which the prompt can always take; the mode the server
    derives from it is the mode of the two flags. *)
Theorem browser_request_is_valid (E' : Engine) (client : Server.AiClient)
        (transcriptBuffer : list string) (audioChunks : nat)
        (hasFace hasVoice : bool) :
  Server.status
    (Server.evaluateHandler E' client
       (evaluationData transcriptBuffer audioChunks hasFace hasVoice)) <> 400 /\
  toPrimitiveThrows
    (Server.shownTranscript
       (evaluationData transcriptBuffer audioChunks hasFace hasVoice)) = false /\
  Server.evaluatePrompt (evaluationData transcriptBuffer audioChunks hasFace hasVoice)
  = Server.EvaluatePrompt (specMode hasFace hasVoice)
      (spokenTranscript transcriptBuffer)
      (JObj [("duration", JNum (ofZ (Z.of_nat audioChunks)));
             ("hasAudio", JBool hasVoice)]).
Proof.
  destruct (spokenTranscript_text transcriptBuffer) as (s & Hs & Hne).
  assert (Ht : ToBoolean (spokenTranscript transcriptBuffer) = true).
  { rewrite Hs. cbn. apply String.eqb_neq in Hne. rewrite Hne. reflexivity. }
  split; [| split].
  - assert (Hvalid : passesValidation
                       (evaluationData transcriptBuffer audioChunks hasFace hasVoice)).
    { unfold passesValidation. cbn [evaluationData Server.transcript].
      rewrite Ht. reflexivity. }
    destruct (evaluate_status_past_guard E' client _ Hvalid) as [H | [H | H]];
      rewrite H; discriminate.
  - unfold Server.shownTranscript, Server.orElse.
    cbn [evaluationData Server.transcript]. rewrite Ht, Hs. reflexivity.
  - unfold Server.evaluatePrompt, Server.shownTranscript, Server.orElse.
    cbn [evaluationData Server.transcript Server.hasFace Server.hasVoice
         Server.audioFeatures ToBoolean].
    rewrite Ht. destruct hasFace, hasVoice; reflexivity.
Qed.

(** An answer with an evaluation has status 200. *)
Lemma evaluated_status (E' : Engine) (client : Server.AiClient)
      (req : Server.EvaluateRequest) (md : string) (ev : Server.Evaluation) :
  Server.payload (Server.evaluateHandler E' client req) = Server.Evaluated md ev ->
  Server.status (Server.evaluateHandler E' client req) = 200.
Proof.
  intros Hp.
  destruct (evaluateHandler_evaluated E' client req md ev Hp) as (m & _ & _ & Hb).
  destruct (evaluateBody_inr E' m req _ Hb)
    as (v & t & cl & ncl & co & nco & _ & _ & _ & _ & _ & _ & _
        & clf & cof & an & _ & _ & _ & Hr).
  rewrite Hr. reflexivity.
Qed.

(** A delivered answer without an evaluation sends the backend path to
    the local evaluator. *)
Lemma backend_without_evaluation (r : Server.Response) (a : App)
      (hasFace hasVoice : bool) (rng : Rng) :
  (forall md ev, Server.payload r <> Server.Evaluated md ev) ->
  evaluateWithBackend E (Delivered r) a hasFace hasVoice rng
  = (let '(r, a', rng') := evaluateLocally E a hasFace hasVoice rng in
     ViaLocal r a' rng').
Proof.
  intros H. unfold evaluateWithBackend.
  destruct r as [st [e | md ev | fb]]; try reflexivity.
  exfalso. apply (H md ev). reflexivity.
Qed.

(** X16. When the fetch fails, or the server answers anything but a 200
    (missing input, AI not configured, AI or parse failure), the backend
    path ends as a call of [evaluateLocally] with the same flags on the
    instance as it is by then. *)
Theorem backend_failure_falls_back (E' : Engine) (client : Server.AiClient)
        (req : Server.EvaluateRequest) (a : App) (hasFace hasVoice : bool)
        (rng : Rng) :
  evaluateWithBackend E FetchFails a hasFace hasVoice rng
  = (let '(r, a', rng') := evaluateLocally E a hasFace hasVoice rng in
     ViaLocal r a' rng') /\
  (Server.status (Server.evaluateHandler E' client req) <> 200 ->
   evaluateWithBackend E (Delivered (Server.evaluateHandler E' client req))
                       a hasFace hasVoice rng
   = (let '(r, a', rng') := evaluateLocally E a hasFace hasVoice rng in
      ViaLocal r a' rng')).
Proof.
  split; [reflexivity |].
  intros Hst. apply backend_without_evaluation.
  intros md ev Hp. apply Hst.
  apply (evaluated_status E' client req md ev Hp).
Qed.




(** *** The local scores *)

Lemma draw_times (c : Z) (r : Q) :
  roundsToNearest E -> 0 <= c <= 1000 ->
  (0 <= r)%Q -> (r < 1)%Q ->
  (0 <= fl E (r * inject_Z c))%Q /\ (fl E (r * inject_Z c) <= inject_Z c)%Q.
Proof.
  intros HE Hc H0 H1.
  assert (HcQ : (0 <= inject_Z c)%Q) by (rewrite (Zle_Qle 0 c) in Hc; tauto).
  apply (fl_between 0 c); auto; try (apply small_abs; lia).
  - change (inject_Z 0) with 0%Q. nra.
  - nra.
Qed.

(** [Math.round(p + q)] for a sum between two small integers. *)
Lemma add_round_range (p q : Q) (lo hi : Z) :
  roundsToNearest E -> 0 <= lo <= 1000 -> 0 <= hi <= 1000 ->
  (inject_Z lo <= p + q)%Q -> (p + q <= inject_Z hi)%Q ->
  integerWithin lo hi (Math_round (add E (Fin p) (Fin q))).
Proof.
  intros HE Hlo Hhi H1 H2. cbn [add Math_round].
  eexists. split; [reflexivity |].
  destruct (fl_between lo hi (p + q) HE) as [Ha Hb];
    auto; try (apply small_abs; lia).
  apply round_between; assumption.
Qed.

Lemma capped (lo hi : Z) (x : JsNumber) :
  integerWithin lo hi x -> lo <= 10 ->
  integerWithin lo (Z.min 10 hi) (Math_min (ofZ 10) x).
Proof.
  intros (z & -> & Hz) Hlo. rewrite Math_min_ofZ.
  exists (Z.min 10 z). split; [reflexivity | lia].
Qed.

Lemma calculateClarity_range (s : CaptureState) (rng : Rng) :
  roundsToNearest E -> wellFormed rng ->
  integerWithin 5 10 (fst (calculateClarity E s rng)).
Proof.
  intros HE Hw. destruct (Hw O) as [H0 H1].
  unfold calculateClarity, Math_random. cbn [fst].
  destruct (draw_times 3 (rng O) HE ltac:(lia) H0 H1) as [Ha Hb].
  change (inject_Z 3) with 3%Q in *.
  destruct (fl_between 5 8 (5 + fl E (rng O * 3)) HE) as [Hc Hd];
    try (apply small_abs; lia);
    try (change (inject_Z 5) with 5%Q); try (change (inject_Z 8) with 8%Q);
    try lra.
  change (inject_Z 5) with 5%Q in Hc. change (inject_Z 8) with 8%Q in Hd.
  destruct (voiceDetected s).
  - apply (capped 5 10). 2: lia.
    apply add_round_range; auto; try lia;
      change (inject_Z 2) with 2%Q; try (change (inject_Z 5) with 5%Q);
      try (change (inject_Z 10) with 10%Q); lra.
  - apply (capped 5 10). 2: lia.
    apply add_round_range; auto; try lia;
      change (inject_Z 0) with 0%Q; try (change (inject_Z 5) with 5%Q);
      try (change (inject_Z 10) with 10%Q); lra.
Qed.

Lemma voiceConfidence_range (r : Q) :
  roundsToNearest E -> (0 <= r)%Q -> (r < 1)%Q ->
  (2 <= fl E (2 + r * 2))%Q /\ (fl E (2 + r * 2) <= 4)%Q.
Proof.
  intros HE H0 H1.
  apply (fl_between 2 4); auto; try (apply small_abs; lia).
  - change (inject_Z 2) with 2%Q. lra.
  - change (inject_Z 4) with 4%Q. lra.
Qed.

Lemma faceConfidence_range (r : Q) :
  roundsToNearest E -> (0 <= r)%Q -> (r < 1)%Q ->
  (4 <= fl E (4 + fl E (r * 3)))%Q /\ (fl E (4 + fl E (r * 3)) <= 7)%Q.
Proof.
  intros HE H0 H1.
  destruct (draw_times 3 r HE ltac:(lia) H0 H1) as [Ha Hb].
  change (inject_Z 3) with 3%Q in *.
  apply (fl_between 4 7); auto; try (apply small_abs; lia).
  - change (inject_Z 4) with 4%Q. lra.
  - change (inject_Z 7) with 7%Q. lra.
Qed.

(** The confidence by what the state says is detected. *)
Lemma calculateConfidence_range (s : CaptureState) (rng : Rng) :
  roundsToNearest E -> wellFormed rng ->
  integerWithin
    (if faceDetected s then (if voiceDetected s then 6 else 4)
     else (if voiceDetected s then 2 else 0))
    (if faceDetected s then (if voiceDetected s then 10 else 7)
     else (if voiceDetected s then 4 else 0))
    (fst (calculateConfidence E s rng)).
Proof.
  intros HE Hw. destruct (Hw O) as [H0 H1]. destruct (Hw (S O)) as [H0' H1'].
  unfold calculateConfidence, Math_random.
  destruct (faceDetected s), (voiceDetected s); cbn [fst snd].
  - destruct (faceConfidence_range (rng O) HE H0 H1) as [Ha Hb].
    destruct (voiceConfidence_range (rng (S O)) HE H0' H1') as [Hc Hd].
    apply (capped 6 11). 2: lia.
    apply add_round_range; auto; try lia.
    + change (inject_Z 6) with 6%Q. lra.
    + change (inject_Z 11) with 11%Q. lra.
  - destruct (faceConfidence_range (rng O) HE H0 H1) as [Ha Hb].
    apply (capped 4 7). 2: lia.
    apply add_round_range; auto; try lia.
    + change (inject_Z 4) with 4%Q. change (inject_Z 0) with 0%Q. lra.
    + change (inject_Z 7) with 7%Q. change (inject_Z 0) with 0%Q. lra.
  - destruct (voiceConfidence_range (rng O) HE H0 H1) as [Hc Hd].
    apply (capped 2 4). 2: lia.
    apply add_round_range; auto; try lia.
    + change (inject_Z 2) with 2%Q. change (inject_Z 0) with 0%Q. lra.
    + change (inject_Z 4) with 4%Q. change (inject_Z 0) with 0%Q. lra.
  - apply (capped 0 0). 2: lia.
    apply add_round_range; auto; try lia.
    + change (inject_Z 0) with 0%Q. lra.
    + change (inject_Z 0) with 0%Q. lra.
Qed.

Lemma round_half_range (lo hi : Z) (x : JsNumber) :
  integerWithin (2 * lo) (2 * hi) x ->
  integerWithin lo hi (Math_round (half x)).
Proof.
  intros (z & -> & Hz). cbn [ofZ half Math_round].
  eexists. split; [reflexivity |].
  apply round_between.
  - assert (H : (inject_Z (2 * lo) <= inject_Z z)%Q)
      by (rewrite <- Zle_Qle; lia).
    rewrite inject_Z_mult in H. change (inject_Z 2) with 2%Q in H. lra.
  - assert (H : (inject_Z z <= inject_Z (2 * hi))%Q)
      by (rewrite <- Zle_Qle; lia).
    rewrite inject_Z_mult in H. change (inject_Z 2) with 2%Q in H. lra.
Qed.

Lemma integerWithin_weaken (lo hi lo' hi' : Z) (x : JsNumber) :
  integerWithin lo hi x -> lo' <= lo -> hi <= hi' -> integerWithin lo' hi' x.
Proof. intros (z & -> & Hz) H1 H2. exists z. split; [reflexivity | lia]. Qed.

(** X18. With rounding to nearest and draws of [0, 1), a local
    evaluation made with the flags of the state never shows a zero: the
    clarity is an integer within 5..10 and the confidence an integer
    within 1..10, whatever is detected. *)
Theorem local_scores_never_zero (a : App) (rng : Rng) :
  roundsToNearest E -> wellFormed rng ->
  integerWithin 5 10
    (clarity (fst (fst (evaluateLocally E a (faceDetected (state a))
                                        (voiceDetected (state a)) rng)))) /\
  integerWithin 1 10
    (confidence (fst (fst (evaluateLocally E a (faceDetected (state a))
                                           (voiceDetected (state a)) rng)))).
Proof.
  intros HE Hw. rewrite evaluateLocally_result.
  destruct (voiceDetected (state a)) eqn:Hv.
  2:{ destruct (localScores_noVoice E (state a) (faceDetected (state a)) rng Hw)
        as (_ & Hc & Hk).
      split; [apply (integerWithin_weaken 5 7) | apply (integerWithin_weaken 3 5)];
        auto; lia. }
  pose proof (calculateClarity_range (state a) rng HE Hw) as Hcl.
  pose proof (calculateConfidence_range (state a) _ HE (wellFormed_next rng Hw)) as Hco.
  rewrite <- (calculateClarity_rng E (state a)) in Hco.
  rewrite Hv in Hco. unfold localScores.
  destruct (faceDetected (state a)) eqn:Hf; cbn [andb negb];
    destruct (calculateClarity E (state a) rng) as [cl rng1];
    cbn [fst snd] in Hcl, Hco;
    destruct (calculateConfidence E (state a) rng1) as [co rng2];
    cbn [fst snd clarity confidence] in *.
  - split; [exact Hcl |]. apply (integerWithin_weaken 6 10); auto; lia.
  - split; [exact Hcl |].
    apply (integerWithin_weaken 1 2); try lia.
    apply round_half_range. exact Hco.
Qed.

(** *** The local feedback *)

(** The draws left after the scores are the draws given, some skipped. *)
Lemma localScores_skips (s : CaptureState) (hasFace hasVoice : bool) (rng : Rng) :
  exists k, forall n,
    snd (localScores E s hasFace hasVoice rng) n = rng (k + n)%nat.
Proof.
  unfold localScores, calculateClarity, calculateConfidence, minimumScore, Math_random.
  destruct (hasFace && hasVoice); [| destruct (negb hasFace && hasVoice)];
    try (destruct (faceDetected s), (voiceDetected s)); cbn [fst snd];
    first [ exists 1%nat; reflexivity
          | exists 2%nat; reflexivity
          | exists 3%nat; reflexivity ].
Qed.

Lemma localScores_mode (s : CaptureState) (hasFace hasVoice : bool) (rng : Rng) :
  mode (fst (localScores E s hasFace hasVoice rng)) = specMode hasFace hasVoice.
Proof.
  unfold localScores.
  destruct hasFace, hasVoice; cbn [andb negb];
    repeat match goal with
           | |- context [let (_, _) := ?c in _] => destruct c
           end; reflexivity.
Qed.

(** X19. When every draw gives an index within the six tips, a local
    evaluation writes two texts into the page: the two fixed sentences
    when no voice was flagged; otherwise one of the six clarity tips,
    with one of the six confidence tips when a face was flagged and the
    camera sentence when not. *)
Theorem local_feedback_texts (a : App) (hasFace hasVoice : bool) (rng : Rng) :
  sixfoldInRange E rng ->
  exists c k,
    clarityFeedbackText
      (page (snd (fst (evaluateLocally E a hasFace hasVoice rng)))) = JStr c /\
    confidenceFeedbackText
      (page (snd (fst (evaluateLocally E a hasFace hasVoice rng)))) = JStr k /\
    if hasVoice then
      In c clarityTips /\
      (if hasFace then In k confidenceTips else k = enableCamera)
    else c = speakIntoMicrophone /\ k = startSpeakingAndCamera.
Proof.
  intros H. unfold evaluateLocally.
  pose proof (localScores_mode (state a) hasFace hasVoice rng) as Hmode.
  destruct (localScores_skips (state a) hasFace hasVoice rng) as (n0 & Hskip).
  destruct (localScores E (state a) hasFace hasVoice rng) as [r rng1].
  cbn [fst snd] in Hmode, Hskip.
  assert (H1 : sixfoldInRange E rng1).
  { intros n. rewrite Hskip. apply H. }
  unfold generateFeedback. rewrite Hmode.
  destruct (pickTip_six E clarityTips rng1 eq_refl H1) as (c1 & Hc1 & Hin1).
  destruct (pickTip_six E confidenceTips rng1 eq_refl H1) as (k1 & Hk1 & Hink1).
  pose proof (sixfoldInRange_next E rng1 H1) as H2.
  rewrite <- (pickTip_rng E confidenceTips) in H2.
  destruct hasVoice; [destruct hasFace |]; cbn [specMode].
  - replace (String.eqb "Human Face + Voice" onlyVoice) with false by reflexivity.
    replace (String.eqb "Human Face + Voice" noVoice) with false by reflexivity.
    destruct (pickTip E confidenceTips rng1) as [ctip rng2].
    cbn [fst snd] in Hk1, H2. subst ctip.
    destruct (pickTip_six E clarityTips rng2 eq_refl H2) as (c2 & Hc2 & Hin2).
    destruct (pickTip E clarityTips rng2) as [tip rng3]. cbn [fst] in Hc2. subst tip.
    exists c2, k1. cbn. auto.
  - replace (String.eqb "Only Voice" onlyVoice) with true by reflexivity.
    destruct (pickTip E clarityTips rng1) as [tip rng2]. cbn [fst] in Hc1. subst tip.
    exists c1, enableCamera. cbn. auto.
  - replace (String.eqb "No Voice" onlyVoice) with false
      by (destruct hasFace; reflexivity).
    destruct hasFace; cbn [specMode];
      replace (String.eqb "No Voice" onlyVoice) with false by reflexivity;
      replace (String.eqb "No Voice" noVoice) with true by reflexivity;
      exists speakIntoMicrophone, startSpeakingAndCamera; cbn; auto.
Qed.

(** *** The session clock *)

Lemma padStart2_length (s : string) : (2 <= String.length (padStart2 s))%nat.
Proof.
  unfold padStart2. destruct s as [| c [| c' rest]]; cbn; lia.
Qed.

Lemma two_digits (n : nat) :
  (n < 60)%nat -> String.length (padStart2 (decimal (Z.of_nat n))) = 2%nat.
Proof.
  intros H. do 60 (destruct n as [| n]; [reflexivity |]). lia.
Qed.

(** X20. For a time that has not run backwards, the clock shows the
    whole seconds elapsed as minutes and seconds: the seconds are below
    60 and always take two characters, the minutes take at least two and
    are not cut at 59, and sixty times the minutes plus the seconds is the
    number of whole seconds. *)
Theorem session_clock (elapsedMs : Z) :
  0 <= elapsedMs ->
  0 <= secondsOf elapsedMs < 60 /\
  0 <= minutesOf elapsedMs /\
  60 * minutesOf elapsedMs + secondsOf elapsedMs = elapsedMs / 1000 /\
  String.length (padStart2 (decimal (secondsOf elapsedMs))) = 2%nat /\
  (2 <= String.length (padStart2 (decimal (minutesOf elapsedMs))))%nat /\
  sessionClock elapsedMs
  = padStart2 (decimal (minutesOf elapsedMs)) ++ ":" ++
    padStart2 (decimal (secondsOf elapsedMs)).
Proof.
  intros H. unfold secondsOf, minutesOf.
  assert (Hs : 0 <= elapsedMs / 1000) by (apply Z.div_pos; lia).
  rewrite Z.rem_mod_nonneg by lia.
  pose proof (Z.mod_pos_bound (elapsedMs / 1000) 60 ltac:(lia)) as Hm.
  pose proof (Z.div_mod (elapsedMs / 1000) 60 ltac:(lia)) as Hd.
  assert (Hq : 0 <= elapsedMs / 1000 / 60) by (apply Z.div_pos; lia).
  repeat split; try lia.
  - rewrite <- (Z2Nat.id ((elapsedMs / 1000) mod 60)) by lia.
    apply two_digits. lia.
  - apply padStart2_length.
  - unfold sessionClock, secondsOf, minutesOf.
    rewrite Z.rem_mod_nonneg by lia. reflexivity.
Qed.

(** *** From start-up to an evaluation *)

(** X21. A server started without a key still answers the status probe,
    so the browser marks the backend available and shows "Backend Ready
    (Add API Key)"; every evaluation then asks the backend, gets the 503
    and ends as a local evaluation. *)
Theorem unconfigured_backend_evaluates_locally
        (E' : Engine) (GEMINI_API_KEY : option string) (sdk : Endpoints.SdkInit)
        (a settled : App) (transcriptBuffer : list string) (audioChunks : nat)
        (rng : Rng) :
  Endpoints.keyPresent GEMINI_API_KEY = false ->
  backendAvailable
    (state (checkBackendStatus
              (StatusDelivered
                 (Endpoints.apiStatus (Endpoints.initialize GEMINI_API_KEY sdk))) a))
  = true /\
  systemStatusText
    (page (checkBackendStatus
             (StatusDelivered
                (Endpoints.apiStatus (Endpoints.initialize GEMINI_API_KEY sdk))) a))
  = "Backend Ready (Add API Key)" /\
  evaluatePerformance E
    (Delivered
       (Server.evaluateHandler E' (Endpoints.initialize GEMINI_API_KEY sdk)
          (evaluationData transcriptBuffer audioChunks
             (faceDetected (state a)) (voiceDetected (state a)))))
    (checkBackendStatus
       (StatusDelivered
          (Endpoints.apiStatus (Endpoints.initialize GEMINI_API_KEY sdk))) a)
    settled rng
  = (let '(r, a', rng') :=
       evaluateLocally E settled (faceDetected (state a)) (voiceDetected (state a)) rng in
     ViaLocal r a' rng').
Proof.
  intros Hk. unfold Endpoints.initialize. rewrite Hk.
  split; [reflexivity | split; [reflexivity |]].
  unfold evaluatePerformance. cbn [checkBackendStatus Endpoints.apiStatus
    Endpoints.api_success Endpoints.geminiAvailable Server.genAI].
  change (backendAvailable (state (setSystemStatusText (setBackendAvailable a true)
            "Backend Ready (Add API Key)"))) with true.
  cbv iota.
  change (faceDetected (state (setSystemStatusText (setBackendAvailable a true)
            "Backend Ready (Add API Key)"))) with (faceDetected (state a)).
  change (voiceDetected (state (setSystemStatusText (setBackendAvailable a true)
            "Backend Ready (Add API Key)"))) with (voiceDetected (state a)).
  apply backend_without_evaluation.
  destruct (spokenTranscript_text transcriptBuffer) as (s & Hs & Hne).
  unfold Server.evaluateHandler.
  cbn [evaluationData Server.transcript Server.hasVoice Server.genAI].
  rewrite Hs. cbn [ToBoolean]. apply String.eqb_neq in Hne. rewrite Hne.
  cbn. discriminate.
Qed.

End MoreClientProperties.

(* ================================================================== *)
(** ** The status probe and requests without a body *)
(* ================================================================== *)

(** X22. The status probe of the browser against this server: when the
    probe is delivered the backend is marked available, whether or not
    the AI is configured, and the status text says which; when it fails
    the backend is marked unavailable and the text is "Local Mode".  The
    statistics of the session are untouched either way. *)
Theorem status_probe (client : Server.AiClient) (a : Client.App) :
  Client.backendAvailable
    (Client.state (Capture.checkBackendStatus
                     (Capture.StatusDelivered (Endpoints.apiStatus client)) a)) = true /\
  Client.systemStatusText
    (Client.page (Capture.checkBackendStatus
                    (Capture.StatusDelivered (Endpoints.apiStatus client)) a))
  = (if Server.genAI client then "AI-Powered Mode Active"
     else "Backend Ready (Add API Key)") /\
  Client.backendAvailable
    (Client.state (Capture.checkBackendStatus Capture.StatusFails a)) = false /\
  Client.systemStatusText
    (Client.page (Capture.checkBackendStatus Capture.StatusFails a)) = "Local Mode" /\
  (forall f,
      Client.evaluationCount (Client.state (Capture.checkBackendStatus f a))
      = Client.evaluationCount (Client.state a) /\
      Client.totalClarity (Client.state (Capture.checkBackendStatus f a))
      = Client.totalClarity (Client.state a) /\
      Client.totalConfidence (Client.state (Capture.checkBackendStatus f a))
      = Client.totalConfidence (Client.state a)).
Proof.
  repeat split; try (destruct (Server.genAI client); reflexivity);
    destruct f as [| d]; try reflexivity;
    cbn [Capture.checkBackendStatus]; destruct (Endpoints.api_success d);
    reflexivity.
Qed.


(* ================================================================== *)
(** ** Instances of the further theorems *)
(* ================================================================== *)

Lemma exampleEngine_rounds : roundsToNearest exampleEngine.
Proof. split; [intros x y H; exact H | intros z _; reflexivity]. Qed.

Lemma halves_sixfold : sixfoldInRange exampleEngine halves.
Proof. intros n. split; discriminate || reflexivity. Qed.

Lemma evaluate_outcomes_witness :
  Server.success (Server.evaluateHandler exampleEngine unconfigured helloRequest) = true
  <-> Server.status (Server.evaluateHandler exampleEngine unconfigured helloRequest) = 200.
Proof.
  exact (proj1 (proj2 (evaluate_outcomes exampleEngine unconfigured helloRequest))).
Defined.

Lemma evaluate_upstream_failure_witness :
  (passesValidation helloRequest /\
   configured (rejecting "quota exceeded")
              (fun _ => Server.Rejects (ThrownError "quota exceeded"))) /\
  Server.evaluateHandler exampleEngine (rejecting "quota exceeded") helloRequest
  = {| Server.status := 500;
       Server.payload := Server.Failure (Server.ErrText "quota exceeded") |}.
Proof.
  split; [split; [reflexivity | split; reflexivity] |].
  exact (proj1 (proj2 (evaluate_upstream_failure exampleEngine
                         (rejecting "quota exceeded") helloRequest
                         (fun _ => Server.Rejects (ThrownError "quota exceeded"))
                         eq_refl (conj eq_refl eq_refl))
                      eq_refl)
           "quota exceeded" eq_refl).
Defined.

Lemma evaluate_reply_not_an_object_witness :
  (passesValidation helloRequest /\
   configured (answering (JStr "fine")) (fun _ => Server.Parsed (JStr "fine"))) /\
  Server.evaluateHandler exampleEngine (answering (JStr "fine")) helloRequest
  = {| Server.status := 200;
       Server.payload := Server.Evaluated "Human Face + Voice"
         {| Server.clarity := NaN; Server.confidence := NaN;
            Server.clarityFeedback := JUndefined;
            Server.confidenceFeedback := JUndefined;
            Server.analysis := JUndefined |} |}.
Proof.
  split; [split; [reflexivity | split; reflexivity] |].
  exact (proj2 (evaluate_reply_not_an_object exampleEngine
                  (answering (JStr "fine")) helloRequest
                  (fun _ => Server.Parsed (JStr "fine")) (JStr "fine")
                  eq_refl (conj eq_refl eq_refl) eq_refl eq_refl)
           eq_refl).
Defined.

Lemma only_voice_confidence_bounds_witness :
  (ToBoolean (Server.hasFace voiceOnlyRequest) = false /\
   ToBoolean (Server.hasVoice voiceOnlyRequest) = true /\
   ofZ 7 <> NaN) /\
  integerWithin 0 10 (ofZ 4) /\
  (inRange 0 10 (ofZ 7) -> integerWithin 0 5 (ofZ 4)).
Proof.
  split; [repeat split; discriminate |].
  exact (only_voice_confidence_bounds exampleEngine
           (answering (replyWith (ofZ 8) (ofZ 7))) voiceOnlyRequest
           (fun _ => Server.Parsed (replyWith (ofZ 8) (ofZ 7)))
           (replyWith (ofZ 8) (ofZ 7)) (ofZ 7)
           "Only Voice"
           {| Server.clarity := ofZ 8;
              Server.confidence := ofZ 4;
              Server.clarityFeedback := JStr "Slow down a little.";
              Server.confidenceFeedback :=
                JStr "Enable your camera to receive full confidence scoring and feedback.";
              Server.analysis := JStr "A steady delivery." |}
           eq_refl eq_refl eq_refl eq_refl eq_refl
           ltac:(discriminate) eq_refl).
Defined.

Lemma face_and_voice_verbatim_witness :
  (inRange 0 10 (Fin (15 # 2)) /\ inRange 0 10 (ofZ 8)) /\
  exists ev,
    Server.evaluateHandler exampleEngine (answering (replyWith (Fin (15 # 2)) (ofZ 8)))
                           helloRequest
    = {| Server.status := 200;
         Server.payload := Server.Evaluated Texts.faceAndVoice ev |} /\
    num_eq (Server.clarity ev) (Fin (15 # 2)) /\
    num_eq (Server.confidence ev) (ofZ 8) /\
    Server.clarityFeedback ev
      = field "clarityFeedback" (replyProps (Fin (15 # 2)) (ofZ 8)) /\
    Server.confidenceFeedback ev
      = field "confidenceFeedback" (replyProps (Fin (15 # 2)) (ofZ 8)) /\
    Server.analysis ev = field "analysis" (replyProps (Fin (15 # 2)) (ofZ 8)).
Proof.
  assert (Ha : inRange 0 10 (Fin (15 # 2))) by (split; discriminate).
  assert (Hb : inRange 0 10 (ofZ 8)) by (split; discriminate).
  split; [split; assumption |].
  exact (face_and_voice_verbatim exampleEngine
           (answering (replyWith (Fin (15 # 2)) (ofZ 8))) helloRequest
           (fun _ => Server.Parsed (replyWith (Fin (15 # 2)) (ofZ 8)))
           (replyWith (Fin (15 # 2)) (ofZ 8))
           (replyProps (Fin (15 # 2)) (ofZ 8)) (Fin (15 # 2)) (ofZ 8)
           eq_refl eq_refl (conj eq_refl eq_refl) eq_refl eq_refl eq_refl
           eq_refl eq_refl Ha Hb).
Defined.

Lemma fallback_tips_witness :
  sixfoldInRange exampleEngine halves /\
  exists c k,
    fst (Server.getFallbackFeedback exampleEngine halves
           (JNum (ofZ 8)) (JNum (ofZ 7)) (JStr "Only Voice"))
      = JObj [("clarityTip", JStr c); ("confidenceTip", JStr k)] /\
    In c Texts.clarityTips /\ k = Texts.enableCamera.
Proof.
  split; [exact halves_sixfold |].
  exact (fallback_tips exampleEngine halves (JNum (ofZ 8)) (JNum (ofZ 7))
                       (JStr "Only Voice") halves_sixfold).
Defined.

Lemma analyze_audio_outcomes_witness :
  Endpoints.audio_status
    (Endpoints.analyzeAudioHandler unconfigured
       (fun _ => Endpoints.Text "clear speech") None) = 400.
Proof.
  exact (proj2 (proj1 (analyze_audio_outcomes unconfigured
                         (fun _ => Endpoints.Text "clear speech") None))
           eq_refl).
Defined.

Lemma missing_key_disables_ai_witness :
  Endpoints.keyPresent (Some "") = false /\
  Server.status
    (Server.evaluateHandler exampleEngine
       (Endpoints.initialize (Some "")
          (Endpoints.SdkReady (fun _ => Server.Parsed (replyWith (ofZ 8) (ofZ 7)))))
       helloRequest) = 503.
Proof.
  split; [reflexivity |].
  exact (proj1 (proj2 (proj2
           (missing_key_disables_ai exampleEngine (Some "")
              (Endpoints.SdkReady (fun _ => Server.Parsed (replyWith (ofZ 8) (ofZ 7))))
              "2024-01-01T00:00:00.000Z" helloRequest halves
              {| Server.fb_clarity := JNum (ofZ 8);
                 Server.fb_confidence := JNum (ofZ 7);
                 Server.fb_mode := JStr "Only Voice" |}
              (fun _ => Endpoints.Text "clear speech")
              {| Endpoints.buffer := []; Endpoints.mimetype := "" |}
              eq_refl)))
           eq_refl).
Defined.

Lemma startup_availability_witness :
  (Endpoints.keyPresent (Some "k-123") = true /\ passesValidation helloRequest) /\
  Server.status
    (Server.evaluateHandler exampleEngine
       (Endpoints.initialize (Some "k-123") Endpoints.GetModelThrows) helloRequest) = 503 /\
  Endpoints.geminiAvailable
    (Endpoints.apiStatus (Endpoints.initialize (Some "k-123") Endpoints.GetModelThrows))
  = true.
Proof.
  split; [split; reflexivity | split; [| reflexivity]].
  exact (proj2 (proj1 (startup_availability exampleEngine (Some "k-123")
                         Endpoints.GetModelThrows helloRequest eq_refl eq_refl))
           (or_intror eq_refl)).
Defined.

Lemma finalDb_range_witness :
  roundsToNearest exampleEngine /\
  integerWithin 0 60 (Capture.finalDbOf exampleEngine [Byte.x00; Byte.xff]).
Proof.
  split; [exact exampleEngine_rounds |].
  exact (proj1 (finalDb_range exampleEngine [Byte.x00; Byte.xff] recording
                  exampleEngine_rounds)
           ltac:(discriminate)).
Defined.

Lemma draw_voice_and_emotion_witness :
  Client.isRecording (Client.state recording) = true /\
  Client.currentEmotion (Client.drawTick (ofZ 30) recording)
    = Some (Client.emotionTone (ofZ 30)) /\
  (Client.voiceDetected (Client.state (Client.drawTick (ofZ 30) recording)) = true <->
   Client.emotionTone (ofZ 30) <> Client.Neutral).
Proof.
  split; [reflexivity |].
  exact (draw_voice_and_emotion (ofZ 30) recording eq_refl).
Defined.

Lemma backend_failure_falls_back_witness :
  Server.status (Server.evaluateHandler exampleEngine unconfigured helloRequest) <> 200 /\
  Capture.evaluateWithBackend exampleEngine
    (Capture.Delivered (Server.evaluateHandler exampleEngine unconfigured helloRequest))
    recording true true halves
  = (let '(r, a', rng') := Client.evaluateLocally exampleEngine recording true true halves in
     Capture.ViaLocal r a' rng').
Proof.
  assert (H : Server.status
                (Server.evaluateHandler exampleEngine unconfigured helloRequest) <> 200)
    by discriminate.
  split; [exact H |].
  exact (proj2 (backend_failure_falls_back exampleEngine exampleEngine unconfigured
                  helloRequest recording true true halves) H).
Defined.

Lemma local_scores_never_zero_witness :
  (roundsToNearest exampleEngine /\ wellFormed halves) /\
  integerWithin 5 10
    (Client.clarity
       (fst (fst (Client.evaluateLocally exampleEngine recording
                    (Client.faceDetected (Client.state recording))
                    (Client.voiceDetected (Client.state recording)) halves)))) /\
  integerWithin 1 10
    (Client.confidence
       (fst (fst (Client.evaluateLocally exampleEngine recording
                    (Client.faceDetected (Client.state recording))
                    (Client.voiceDetected (Client.state recording)) halves)))).
Proof.
  split; [split; [exact exampleEngine_rounds | exact halves_wellFormed] |].
  exact (local_scores_never_zero exampleEngine recording halves
           exampleEngine_rounds halves_wellFormed).
Defined.

Lemma local_feedback_texts_witness :
  sixfoldInRange exampleEngine halves /\
  exists c k,
    Client.clarityFeedbackText
      (Client.page (snd (fst (Client.evaluateLocally exampleEngine recording
                                true true halves)))) = JStr c /\
    Client.confidenceFeedbackText
      (Client.page (snd (fst (Client.evaluateLocally exampleEngine recording
                                true true halves)))) = JStr k /\
    In c Texts.clarityTips /\ In k Texts.confidenceTips.
Proof.
  split; [exact halves_sixfold |].
  exact (local_feedback_texts exampleEngine recording true true halves halves_sixfold).
Defined.

Lemma session_clock_witness :
  0 <= 125999 /\
  Capture.sessionClock 125999 = "02:05" /\
  0 <= Capture.secondsOf 125999 < 60 /\
  60 * Capture.minutesOf 125999 + Capture.secondsOf 125999 = 125999 / 1000.
Proof.
  split; [discriminate | split; [reflexivity |]].
  pose proof (session_clock 125999 ltac:(discriminate)) as H.
  exact (conj (proj1 H) (proj1 (proj2 (proj2 H)))).
Defined.

Lemma unconfigured_backend_evaluates_locally_witness :
  Endpoints.keyPresent None = false /\
  Client.systemStatusText
    (Client.page (Capture.checkBackendStatus
                    (Capture.StatusDelivered
                       (Endpoints.apiStatus
                          (Endpoints.initialize None Endpoints.ConstructorThrows)))
                    recording))
  = "Backend Ready (Add API Key)".
Proof.
  split; [reflexivity |].
  exact (proj1 (proj2 (unconfigured_backend_evaluates_locally exampleEngine exampleEngine
                         None Endpoints.ConstructorThrows recording recording
                         [] 0%nat halves eq_refl))).
Defined.

